(** * remote_train_dashboard: the monitoring core of [app.py]

    A shallow embedding of the Flask application [app.py]: the remote
    executor ([run_ssh_command], [run_rsync]), the two metric collectors
    ([fetch_nvidia_smi], [fetch_tensorboard_data]), the monitoring
    controller ([start_monitoring], [stop_monitoring]) and the read-only
    API handlers, followed by the properties of the specification.

    Python's module-level globals become one [state] record that is threaded
    through a small state-and-exception monad; [try ... except Exception]
    becomes [try_except]; [with data_lock:] becomes [with_lock].  Everything
    outside the interpreter (child processes, the wall clock, the local
    file system, [json.loads]) is read from a [runtime] record, indexed by a
    logical clock so that two calls may see different answers. *)

From Stdlib Require Import ZArith NArith Ascii String List Bool Lia.
From stdpp Require Import base option list strings gmap.

Local Open Scope string_scope.
Local Open Scope list_scope.
Set Warnings "-register-all".

(** ** Python built-ins used by the program

    A Python [str] is modelled as a Rocq [string]; every [ascii] stands for
    one code point below 256.  On that range the white space of [str.strip]
    and the decimal digits of [float] are exactly the ones listed here. *)
Module Py.

Definition code (c : ascii) : nat := nat_of_ascii c.

(** [str.isspace] on a single code point below 256. *)
Definition isspace (c : ascii) : bool :=
  let n := code c in
  (((9 <=? n) && (n <=? 13)) || ((28 <=? n) && (n <=? 32))
   || (n =? 133) || (n =? 160))%nat.

Definition isdigit (c : ascii) : bool :=
  let n := code c in ((48 <=? n) && (n <=? 57))%nat.

Definition digit_value (c : ascii) : N := N.of_nat (code c - 48).

Fixpoint lstrip_chars (drop : ascii -> bool) (l : list ascii) : list ascii :=
  match l with
  | c :: l' => if drop c then lstrip_chars drop l' else l
  | [] => []
  end.

Definition rstrip_chars (drop : ascii -> bool) (l : list ascii) : list ascii :=
  rev (lstrip_chars drop (rev l)).

(** [s.strip()] *)
Definition strip (s : string) : string :=
  string_of_list_ascii
    (rstrip_chars isspace (lstrip_chars isspace (list_ascii_of_string s))).

(** [s.lstrip(chars)] for a one-character [chars]; the program only calls
    [lstrip('/')]. *)
Definition lstrip (ch : ascii) (s : string) : string :=
  string_of_list_ascii (lstrip_chars (Ascii.eqb ch) (list_ascii_of_string s)).

(** [s.split(sep)] for a one-character separator: never empty. *)
Fixpoint split (sep : ascii) (s : string) : list string :=
  match s with
  | EmptyString => [EmptyString]
  | String c s' =>
      if Ascii.eqb c sep then EmptyString :: split sep s'
      else match split sep s' with
           | h :: t => String c h :: t
           | [] => [String c EmptyString]
           end
  end.

(** [sep.join(parts)] *)
Fixpoint join (sep : string) (parts : list string) : string :=
  match parts with
  | [] => ""
  | [p] => p
  | p :: ps => p +:+ sep +:+ join sep ps
  end.

(** [needle in haystack] for two strings. *)
Fixpoint contains (needle haystack : string) : bool :=
  String.prefix needle haystack
  || match haystack with
     | EmptyString => false
     | String _ h' => contains needle h'
     end.

(** The value of a float literal, kept exact: [Finite neg m e] stands for
    [(-1)^neg * m * 10^e].  The rounding to a binary double that CPython
    performs afterwards is not modelled; no property below looks at the
    numeric value. *)
Inductive float : Type :=
| Finite (negative : bool) (mantissa : N) (exp10 : Z)
| Infinity (negative : bool)
| NaN.

(** digitpart ::= digit (["_"] digit)*, after the first digit has been
    read: returns the accumulated value, the number of digits read and the
    rest of the input. *)
Fixpoint digitpart_tail (acc : N) (n : nat) (l : list ascii)
  : N * nat * list ascii :=
  match l with
  | c :: l' =>
      if isdigit c then digitpart_tail (acc * 10 + digit_value c) (S n) l'
      else if Ascii.eqb c "_" then
        match l' with
        | d :: l'' =>
            if isdigit d
            then digitpart_tail (acc * 10 + digit_value d) (S n) l''
            else (acc, n, l)
        | [] => (acc, n, l)
        end
      else (acc, n, l)
  | [] => (acc, n, [])
  end.

(** An optional digitpart continuing the accumulator [acc]. *)
Definition digitpart (acc : N) (l : list ascii) : N * nat * list ascii :=
  match l with
  | c :: l' =>
      if isdigit c then digitpart_tail (acc * 10 + digit_value c) 1 l'
      else (acc, O, l)
  | [] => (acc, O, [])
  end.

Definition sign (l : list ascii) : bool * list ascii :=
  match l with
  | c :: l' =>
      if Ascii.eqb c "-" then (true, l')
      else if Ascii.eqb c "+" then (false, l')
      else (false, l)
  | [] => (false, [])
  end.

(** exponent ::= ("e" | "E") [sign] digitpart, then the end of input. *)
Definition exponent (l : list ascii) : option Z :=
  match l with
  | [] => Some 0%Z
  | c :: l' =>
      if Ascii.eqb c "e" || Ascii.eqb c "E" then
        let '(neg, l1) := sign l' in
        match digitpart 0 l1 with
        | (e, S _, []) => Some (if neg then (- Z.of_N e)%Z else Z.of_N e)
        | _ => None
        end
      else None
  end.

(** number ::= [digitpart] "." digitpart | digitpart ["."] *)
Definition floatnumber (neg : bool) (l : list ascii) : option float :=
  let '(int_value, int_digits, l1) := digitpart 0 l in
  let '(m, frac_digits, l2) :=
    match l1 with
    | c :: l1' =>
        if Ascii.eqb c "." then digitpart int_value l1'
        else (int_value, O, l1)
    | [] => (int_value, O, [])
    end in
  match (int_digits + frac_digits)%nat with
  | O => None
  | S _ =>
      match exponent l2 with
      | Some e => Some (Finite neg m (e - Z.of_nat frac_digits))
      | None => None
      end
  end.

Definition lower (c : ascii) : ascii :=
  let n := code c in
  if ((65 <=? n) && (n <=? 90))%nat then ascii_of_nat (n + 32) else c.

(** [float(s)] on a string: [None] stands for the [ValueError]. *)
Definition parse_float (s : string) : option float :=
  let body :=
    rstrip_chars isspace (lstrip_chars isspace (list_ascii_of_string s)) in
  let '(neg, l) := sign body in
  let word := string_of_list_ascii (map lower l) in
  if String.eqb word "inf" || String.eqb word "infinity" then Some (Infinity neg)
  else if String.eqb word "nan" then Some NaN
  else floatnumber neg l.

(** [l[-n:]] for a positive [n]. *)
Definition last_n {A} (n : nat) (l : list A) : list A :=
  skipn (length l - n) l.

End Py.

(** ** Data model *)

(** What [json.loads] returns: dict, list, str, int, float, bool or None.
    A dict is kept as its list of items; its keys are distinct. *)
Inductive json : Type :=
| JNull
| JBool (b : bool)
| JInt (n : Z)
| JFloat (x : Py.float)
| JStr (s : string)
| JArr (items : list json)
| JObj (members : list (string * json)).

(** A raised exception: its class name and [str(e)]. *)
Record exn : Type := Exception { exc_class : string; exc_text : string }.

Inductive result (A : Type) : Type :=
| Return (a : A)
| Raise (e : exn).
Arguments Return {A} a.
Arguments Raise {A} e.

(** [subprocess.CompletedProcess] with [capture_output=True, text=True]. *)
Record CompletedProcess : Type := Completed {
  cp_stdout : string;
  cp_stderr : string;
  cp_returncode : Z
}.

(** The configuration read from the environment at import time and the
    world outside the interpreter.  The oracles take the logical clock of
    the call, so that the remote host and the local disk may change between
    two calls. *)
Record runtime : Type := Runtime {
  SSH_HOST : string;
  SSH_PORT : string;
  SSH_KEY_PATH : string;
  SSH_USERNAME : string;
  TENSORBOARD_LOGS_PATH : string;
  IMAGE_SAMPLES_PATH : string;
  REMOTE_VENV_PATH : string;
  MAIN_THREAD_OUTPUT : string;
  LOCAL_OUTPUT_PATH : string;
  TENSORBOARD_SCRIPT_PATH : string;
  (** [subprocess.run(argv, capture_output=True, text=True)]: the child's
      captured result, or the exception of a failed spawn. *)
  subprocess_run : nat -> list string -> result CompletedProcess;
  (** [datetime.now().isoformat()] *)
  datetime_now_isoformat : nat -> string;
  (** [os.path.exists(path)] *)
  os_path_exists : nat -> string -> bool;
  (** [open(path, 'r', encoding='utf-8', errors='replace').read()] *)
  read_text : nat -> string -> result string;
  (** [json.loads(text)] *)
  json_loads : string -> result json;
  (** [repr(s)] of a string, as it appears in [float]'s error text. *)
  repr : string -> string;
  (** The text of the [TypeError] that an operator raises on a value. *)
  type_error_text : string -> json -> string
}.

(** The dict [nvidia_smi_data]: five lists under five fixed keys. *)
Record gpu_window : Type := GpuWindow {
  timestamps : list string;
  temperature : list Py.float;
  power : list Py.float;
  memory_used : list Py.float;
  memory_total : list Py.float
}.

(** A started [threading.Thread], named by its target. *)
Inductive thread : Type :=
| nvidia_smi_monitor_thread
| tensorboard_monitor_thread (experiment_path : string).

(** The module-level globals that are assigned or mutated at run time. *)
Inductive shared : Type :=
| G_nvidia_smi_data
| G_tensorboard_data
| G_tensorboard_experiments
| G_monitoring_active
| G_monitoring_threads.

(** What an execution leaves in the trace.  A [Write] records whether
    [data_lock] was held by the writer at that moment. *)
Inductive event : Type :=
| Acquire
| Release
| Write (g : shared) (locked : bool)
| Spawn (argv : list string)
| ThreadStart (t : thread).

Record state : Type := State {
  tensorboard_data : gmap string json;
  nvidia_smi_data : gpu_window;
  tensorboard_experiments : list string;
  monitoring_active : bool;
  monitoring_threads : list thread;
  lock_held : bool;
  clock : nat;
  trace : list event
}.

(** The globals as the module body leaves them. *)
Definition initial_state : state :=
  State ∅ (GpuWindow [] [] [] [] []) [] false [] false 0 [].

(** ** A state-and-exception monad for the function bodies *)

Definition M (A : Type) : Type := state -> result A * state.

Definition ret {A} (a : A) : M A := fun s => (Return a, s).

Definition raise {A} (e : exn) : M A := fun s => (Raise e, s).

Definition bind {A B} (m : M A) (k : A -> M B) : M B :=
  fun s =>
    match m s with
    | (Return a, s') => k a s'
    | (Raise e, s') => (Raise e, s')
    end.

(** [try: body  except Exception as e: handler e] *)
Definition try_except {A} (body : M A) (handler : exn -> M A) : M A :=
  fun s =>
    match body s with
    | (Return a, s') => (Return a, s')
    | (Raise e, s') => handler e s'
    end.

Declare Scope py_scope.
Delimit Scope py_scope with py.
Notation "x <- m ;; k" := (bind m (fun x => k))
  (at level 100, m at next level, right associativity) : py_scope.
Notation "m ;; k" := (bind m (fun _ => k))
  (at level 100, right associativity) : py_scope.
Local Open Scope py_scope.

Definition lift {A} (r : result A) : M A :=
  match r with
  | Return a => ret a
  | Raise e => raise e
  end.

Definition emit (e : event) (s : state) : state :=
  State (tensorboard_data s) (nvidia_smi_data s) (tensorboard_experiments s)
        (monitoring_active s) (monitoring_threads s) (lock_held s) (clock s)
        (trace s ++ [e]).

Definition set_lock (b : bool) (s : state) : state :=
  State (tensorboard_data s) (nvidia_smi_data s) (tensorboard_experiments s)
        (monitoring_active s) (monitoring_threads s) b (clock s) (trace s).

(** The next reading of the logical clock. *)
Definition tick : M nat :=
  fun s =>
    (Return (clock s),
     State (tensorboard_data s) (nvidia_smi_data s) (tensorboard_experiments s)
           (monitoring_active s) (monitoring_threads s) (lock_held s)
           (S (clock s)) (trace s)).

Definition load {A} (field : state -> A) : M A := fun s => (Return (field s), s).

(** [with data_lock: body]; the lock is released on every exit. *)
Definition with_lock {A} (body : M A) : M A :=
  fun s =>
    let '(r, s') := body (emit Acquire (set_lock true s)) in
    (r, emit Release (set_lock false s')).

(** Assignments to (and in-place mutations of) the globals. *)
Definition store_nvidia_smi_data (f : gpu_window -> gpu_window) : M unit :=
  fun s =>
    (Return tt,
     emit (Write G_nvidia_smi_data (lock_held s))
       (State (tensorboard_data s) (f (nvidia_smi_data s))
              (tensorboard_experiments s) (monitoring_active s)
              (monitoring_threads s) (lock_held s) (clock s) (trace s))).

Definition store_tensorboard_data
  (f : gmap string json -> gmap string json) : M unit :=
  fun s =>
    (Return tt,
     emit (Write G_tensorboard_data (lock_held s))
       (State (f (tensorboard_data s)) (nvidia_smi_data s)
              (tensorboard_experiments s) (monitoring_active s)
              (monitoring_threads s) (lock_held s) (clock s) (trace s))).

Definition store_tensorboard_experiments (v : list string) : M unit :=
  fun s =>
    (Return tt,
     emit (Write G_tensorboard_experiments (lock_held s))
       (State (tensorboard_data s) (nvidia_smi_data s) v (monitoring_active s)
              (monitoring_threads s) (lock_held s) (clock s) (trace s))).

Definition store_monitoring_active (v : bool) : M unit :=
  fun s =>
    (Return tt,
     emit (Write G_monitoring_active (lock_held s))
       (State (tensorboard_data s) (nvidia_smi_data s)
              (tensorboard_experiments s) v (monitoring_threads s)
              (lock_held s) (clock s) (trace s))).

Definition store_monitoring_threads (f : list thread -> list thread) : M unit :=
  fun s =>
    (Return tt,
     emit (Write G_monitoring_threads (lock_held s))
       (State (tensorboard_data s) (nvidia_smi_data s)
              (tensorboard_experiments s) (monitoring_active s)
              (f (monitoring_threads s)) (lock_held s) (clock s) (trace s))).

(** [threading.Thread(target=..., daemon=True).start()] *)
Definition thread_start (t : thread) : M unit :=
  fun s => (Return tt, emit (ThreadStart t) s).

(** ** The program *)

(** A double quote and a line feed, for the command lines and messages. *)
Definition dq : string := String "034" EmptyString.
Definition nl : string := String "010" EmptyString.
Definition lf : ascii := "010"%char.

Definition REMOTE_SCRIPT_PATH : string :=
  "/home/user/remoteutil/extract_tensorboard.py".

(** [os.path.dirname(REMOTE_SCRIPT_PATH)] *)
Definition remote_dir : string := "/home/user/remoteutil".

(** The result dict of [fetch_nvidia_smi]. *)
Record gpu_result : Type := GpuResult {
  g_command : string;
  g_stdout : string;
  g_stderr : string;
  g_returncode : Z
}.

(** The result dict of [fetch_tensorboard_data]; ['error'] is present on
    one path only. *)
Record tb_result : Type := TbResult {
  t_data : option json;
  t_command : string;
  t_stdout : string;
  t_stderr : string;
  t_returncode : Z;
  t_error : option json
}.

(** The result dict of [list_tensorboard_experiments]. *)
Record experiments_result : Type := ExperimentsResult {
  e_experiments : list string;
  e_command : string;
  e_stdout : string;
  e_stderr : string;
  e_returncode : Z
}.

(** The JSON bodies of the monitoring, sync and output endpoints: absent
    keys are [None]. *)
Record response : Type := Response {
  r_status : string;
  r_message : option string;
  r_output : option string;
  r_content : option string;
  r_returncode : option Z
}.

(** [nvidia_smi_data.copy()]: a new dict over the same five list objects.
    The lists are shared with the collector threads, which append to them
    in place and rebind the keys to new lists when they trim, and the copy
    is serialised after the lock has been released.  A copy is therefore
    kept as a reference, named by the length of the trace at the moment it
    was taken: it stands for the list objects bound in [nvidia_smi_data] at
    that moment, not for a content. *)
Inductive shared_lists : Type :=
| CopiedAt (moment : nat).

(** What [get_nvidia_smi_data] hands to [jsonify]. *)
Record nvidia_response : Type := NvidiaResponse {
  n_data : shared_lists;
  n_error : option string;
  n_command : string;
  n_raw_output : string;
  n_stderr : string;
  n_returncode : Z
}.

Definition shallow_copy : M shared_lists :=
  fun s => (Return (CopiedAt (length (trace s))), s).

(** The body of [POST /api/start-monitoring] as the handler reads it.
    [request.json] raises when the request has no JSON body (wrong content
    type, malformed text) and returns the decoded document otherwise;
    [data.get('experiment_path')] raises [AttributeError] when the document
    is not a dict (null, a list, a string, a number, a boolean).  In a dict
    the member is absent, null or a string; a member that is false, zero or
    an empty container acts as an absent one, and a member that is true, a
    non-zero number or a non-empty container is outside the model. *)
Inductive request_data : Type :=
| NotADict (attribute_error : exn)
| Dict (experiment_path : option string).

(** [data.get('experiment_path')] *)
Definition get_experiment_path (data : request_data) : M (option string) :=
  match data with
  | NotADict e => raise e
  | Dict experiment_path => ret experiment_path
  end.

(** [values[i]] *)
Definition getitem (values : list string) (i : nat) : M string :=
  match nth_error values i with
  | Some v => ret v
  | None => raise (Exception "IndexError" "list index out of range")
  end.

(** [key in d] and [d[key]] for a dict kept as its items. *)
Fixpoint dict_get (key : string) (members : list (string * json)) : option json :=
  match members with
  | [] => None
  | (k, v) :: rest => if String.eqb k key then Some v else dict_get key rest
  end.

Definition is_jstr (key : string) (j : json) : bool :=
  match j with
  | JStr s => String.eqb s key
  | _ => false
  end.

Definition nonempty (s : string) : bool :=
  match s with
  | EmptyString => false
  | String _ _ => true
  end.

Section Program.

Variable rt : runtime.

(** [float(s)] *)
Definition float (s : string) : M Py.float :=
  match Py.parse_float s with
  | Some x => ret x
  | None =>
      raise (Exception "ValueError"
               ("could not convert string to float: " +:+ repr rt s))
  end.

(** [key in data] on a decoded JSON value. *)
Definition contains (key : string) (data : json) : M bool :=
  match data with
  | JObj members => ret (bool_decide (is_Some (dict_get key members)))
  | JArr items => ret (existsb (is_jstr key) items)
  | JStr s => ret (Py.contains key s)
  | _ => raise (Exception "TypeError" (type_error_text rt "in" data))
  end.

(** [data[key]] for a string [key]. *)
Definition subscript (data : json) (key : string) : M json :=
  match data with
  | JObj members =>
      match dict_get key members with
      | Some v => ret v
      | None => raise (Exception "KeyError" (repr rt key))
      end
  | _ => raise (Exception "TypeError" (type_error_text rt "[]" data))
  end.

Definition subprocess_run_ (argv : list string) : M CompletedProcess :=
  t <- tick ;;
  (fun s => (Return tt, emit (Spawn argv) s)) ;;
  lift (subprocess_run rt t argv).

Definition ssh_transport : string :=
  "ssh -i " +:+ SSH_KEY_PATH rt +:+ " -p " +:+ SSH_PORT rt
  +:+ " -o StrictHostKeyChecking=no".

Definition remote_login : string := SSH_USERNAME rt +:+ "@" +:+ SSH_HOST rt.

(** The list [ssh_command] of [run_ssh_command]. *)
Definition ssh_argv (command : string) : list string :=
  ["ssh"; "-i"; SSH_KEY_PATH rt; "-p"; SSH_PORT rt;
   "-o"; "StrictHostKeyChecking=no"; remote_login; command].

Definition run_ssh_command (command : string) : M (string * string * Z) :=
  let ssh_command := ssh_argv command in
  result <- subprocess_run_ ssh_command ;;
  ret (cp_stdout result, cp_stderr result, cp_returncode result).

(** The list [rsync_command] of [run_rsync]. *)
Definition rsync_argv (source destination : string) (remote_to_local : bool)
  : list string :=
  if remote_to_local
  then ["rsync"; "-av"; "-e"; ssh_transport;
        remote_login +:+ ":" +:+ source; destination]
  else ["rsync"; "-av"; "-e"; ssh_transport;
        source; remote_login +:+ ":" +:+ destination].

Definition run_rsync (source destination : string) (remote_to_local : bool)
  : M (string * string * string * Z) :=
  let rsync_command := rsync_argv source destination remote_to_local in
  let command_str := Py.join " " rsync_command in
  result <- subprocess_run_ rsync_command ;;
  ret (command_str, cp_stdout result, cp_stderr result, cp_returncode result).

Definition sync_tensorboard_script : M bool :=
  try_except
    (let mkdir_command := "mkdir -p " +:+ remote_dir in
     run_ssh_command mkdir_command ;;
     r <- run_rsync (TENSORBOARD_SCRIPT_PATH rt) REMOTE_SCRIPT_PATH false ;;
     let '(_, _, _, returncode) := r in
     if negb (returncode =? 0)%Z then ret false else ret true)
    (fun _ => ret false).

Definition list_experiments_command : string :=
  "find " +:+ TENSORBOARD_LOGS_PATH rt +:+ " -type d -name " +:+ dq
  +:+ "events.out.tfevents.*" +:+ dq +:+ " -exec dirname {} \;".

Definition list_tensorboard_experiments : M experiments_result :=
  let command := list_experiments_command in
  try_except
    (r <- run_ssh_command command ;;
     let '(stdout, stderr, returncode) := r in
     if negb (returncode =? 0)%Z
     then ret (ExperimentsResult [] command stdout stderr returncode)
     else
       let experiments := Py.split lf (Py.strip stdout) in
       let experiments := filter (fun exp => nonempty exp = true) experiments in
       with_lock (store_tensorboard_experiments experiments) ;;
       ret (ExperimentsResult experiments command stdout stderr returncode))
    (fun e => ret (ExperimentsResult [] command "" (exc_text e) 1)).

Definition tensorboard_command (experiment_path : string) : string :=
  "source " +:+ REMOTE_VENV_PATH rt +:+ "/bin/activate && python "
  +:+ REMOTE_SCRIPT_PATH +:+ " " +:+ dq +:+ experiment_path +:+ dq.

Definition fetch_tensorboard_data (experiment_path : string) : M tb_result :=
  let command := tensorboard_command experiment_path in
  try_except
    (r <- run_ssh_command command ;;
     let '(stdout, stderr, returncode) := r in
     if negb (returncode =? 0)%Z || negb (nonempty stdout)
     then ret (TbResult None command stdout stderr returncode None)
     else
       data <- lift (json_loads rt stdout) ;;
       has_error <- contains "error" data ;;
       if has_error : bool
       then
         err <- subscript data "error" ;;
         ret (TbResult None command stdout stderr returncode (Some err))
       else
         let normalized_path := Py.lstrip "/" experiment_path in
         with_lock (store_tensorboard_data (<[normalized_path := data]>)) ;;
         ret (TbResult (Some data) command stdout stderr returncode None))
    (fun e => ret (TbResult None command "" (exc_text e) 1 None)).

Definition nvidia_smi_command : string :=
  "nvidia-smi --query-gpu=temperature.gpu,power.draw,memory.used,memory.total --format=csv,noheader,nounits".

(** [nvidia_smi_data[key] = nvidia_smi_data[key][-100:]], key by key. *)
Definition trim_timestamps (w : gpu_window) : gpu_window :=
  GpuWindow (Py.last_n 100 (timestamps w)) (temperature w) (power w)
            (memory_used w) (memory_total w).
Definition trim_temperature (w : gpu_window) : gpu_window :=
  GpuWindow (timestamps w) (Py.last_n 100 (temperature w)) (power w)
            (memory_used w) (memory_total w).
Definition trim_power (w : gpu_window) : gpu_window :=
  GpuWindow (timestamps w) (temperature w) (Py.last_n 100 (power w))
            (memory_used w) (memory_total w).
Definition trim_memory_used (w : gpu_window) : gpu_window :=
  GpuWindow (timestamps w) (temperature w) (power w)
            (Py.last_n 100 (memory_used w)) (memory_total w).
Definition trim_memory_total (w : gpu_window) : gpu_window :=
  GpuWindow (timestamps w) (temperature w) (power w) (memory_used w)
            (Py.last_n 100 (memory_total w)).

(** [nvidia_smi_data[key].append(x)], key by key. *)
Definition append_timestamps (x : string) (w : gpu_window) : gpu_window :=
  GpuWindow (timestamps w ++ [x]) (temperature w) (power w)
            (memory_used w) (memory_total w).
Definition append_temperature (x : Py.float) (w : gpu_window) : gpu_window :=
  GpuWindow (timestamps w) (temperature w ++ [x]) (power w)
            (memory_used w) (memory_total w).
Definition append_power (x : Py.float) (w : gpu_window) : gpu_window :=
  GpuWindow (timestamps w) (temperature w) (power w ++ [x])
            (memory_used w) (memory_total w).
Definition append_memory_used (x : Py.float) (w : gpu_window) : gpu_window :=
  GpuWindow (timestamps w) (temperature w) (power w)
            (memory_used w ++ [x]) (memory_total w).
Definition append_memory_total (x : Py.float) (w : gpu_window) : gpu_window :=
  GpuWindow (timestamps w) (temperature w) (power w) (memory_used w)
            (memory_total w ++ [x]).

Definition datetime_now : M string :=
  t <- tick ;; ret (datetime_now_isoformat rt t).

Definition fetch_nvidia_smi : M gpu_result :=
  let command := nvidia_smi_command in
  try_except
    (r <- run_ssh_command command ;;
     let '(stdout, stderr, returncode) := r in
     if negb (returncode =? 0)%Z
     then ret (GpuResult command stdout stderr returncode)
     else
       let output := Py.strip stdout in
       (if nonempty output
        then
          let values := Py.split "," output in
          v0 <- getitem values 0 ;;
          temp <- float (Py.strip v0) ;;
          v1 <- getitem values 1 ;;
          power <- float (Py.strip v1) ;;
          v2 <- getitem values 2 ;;
          mem_used <- float (Py.strip v2) ;;
          v3 <- getitem values 3 ;;
          mem_total <- float (Py.strip v3) ;;
          with_lock
            (now <- datetime_now ;;
             store_nvidia_smi_data (append_timestamps now) ;;
             store_nvidia_smi_data (append_temperature temp) ;;
             store_nvidia_smi_data (append_power power) ;;
             store_nvidia_smi_data (append_memory_used mem_used) ;;
             store_nvidia_smi_data (append_memory_total mem_total) ;;
             w <- load nvidia_smi_data ;;
             if (100 <? length (timestamps w))%nat
             then
               store_nvidia_smi_data trim_timestamps ;;
               store_nvidia_smi_data trim_temperature ;;
               store_nvidia_smi_data trim_power ;;
               store_nvidia_smi_data trim_memory_used ;;
               store_nvidia_smi_data trim_memory_total
             else ret tt)
        else ret tt) ;;
       ret (GpuResult command stdout stderr returncode))
    (fun e => ret (GpuResult command "" (exc_text e) 1)).

(** One turn of [while monitoring_active: fetch...; time.sleep(...)] in the
    two collector threads: [false] when the loop exits.  The sleep and the
    diagnostic print are not modelled. *)
Definition nvidia_smi_monitor_turn : M bool :=
  active <- load monitoring_active ;;
  if active : bool then fetch_nvidia_smi ;; ret true else ret false.

Definition tensorboard_monitor_turn (experiment_path : string) : M bool :=
  active <- load monitoring_active ;;
  if active : bool
  then fetch_tensorboard_data experiment_path ;; ret true
  else ret false.

(** [GET /api/tensorboard/<path:experiment_path>]: the body handed to
    [jsonify]. *)
Definition get_tensorboard_data (experiment_path : string) : M json :=
  let normalized_path := Py.lstrip "/" experiment_path in
  with_lock
    (m <- load tensorboard_data ;;
     ret (default (JObj []) (m !! normalized_path))).

(** [GET /api/nvidia-smi]: the sample, then the shallow copy inside the
    lock; [jsonify] runs on the copy after the lock is released and is not
    part of the model. *)
Definition get_nvidia_smi_data : M nvidia_response :=
  try_except
    (result <- fetch_nvidia_smi ;;
     data <- with_lock shallow_copy ;;
     ret (NvidiaResponse data None (g_command result) (g_stdout result)
            (g_stderr result) (g_returncode result)))
    (fun e =>
       data <- with_lock shallow_copy ;;
       ret (NvidiaResponse data (Some (exc_text e)) "" "" (exc_text e) 1)).

(** Truth value of [data.get('experiment_path')]: the key may be absent,
    and the empty string is false. *)
Definition truthy (experiment_path : option string) : option string :=
  match experiment_path with
  | Some p => if nonempty p then Some p else None
  | None => None
  end.

Definition start_error (message : string) (output : string) : response :=
  Response "error" (Some message) (Some output) None None.

(** [POST /api/start-monitoring], from [request.json].  The body is read
    after the test of the flag and before the [try]: an exception of either
    line leaves the handler.  The source has one [try] around both remote
    calls, whose handler reads the list [outputs] as the failing call left
    it; here each call carries that handler with the value [outputs] has at
    that point. *)
Definition start_monitoring (request_json : result request_data) : M response :=
  active <- load monitoring_active ;;
  if active : bool
  then ret (Response "already_running" None (Some "Monitoring already active")
              None None)
  else
    data <- lift request_json ;;
    experiment_path <- get_experiment_path data ;;
    let on_exception (outputs : list string) (e : exn) : M (response + list string) :=
      ret (inl (start_error (exc_text e)
                  (Py.join nl outputs +:+ nl +:+ "Error: " +:+ exc_text e))) in
    synced <-
      try_except
        (let mkdir_command := "mkdir -p " +:+ remote_dir in
         r <- run_ssh_command mkdir_command ;;
         let '(stdout, stderr, returncode) := r in
         let outputs := ["$ " +:+ mkdir_command +:+ nl +:+ stdout +:+ stderr] in
         try_except
           (r <- run_rsync (TENSORBOARD_SCRIPT_PATH rt) REMOTE_SCRIPT_PATH false ;;
            let '(rsync_command, rsync_stdout, rsync_stderr, rsync_returncode) := r in
            let outputs :=
              outputs ++ ["$ " +:+ rsync_command +:+ nl +:+ rsync_stdout +:+ rsync_stderr] in
            if negb (rsync_returncode =? 0)%Z
            then ret (inl (start_error "Failed to sync tensorboard script"
                             (Py.join nl outputs)))
            else ret (inr outputs))
           (on_exception outputs))
        (on_exception []) ;;
    match synced with
    | inl error_response => ret error_response
    | inr outputs =>
        store_monitoring_active true ;;
        store_monitoring_threads (fun _ => []) ;;
        nvidia_result <- fetch_nvidia_smi ;;
        let outputs :=
          if (g_returncode nvidia_result =? 0)%Z
          then outputs ++ ["Initial GPU metrics fetched successfully"]
          else outputs in
        outputs <-
          match truthy experiment_path with
          | Some p =>
              tb <- fetch_tensorboard_data p ;;
              if (t_returncode tb =? 0)%Z
              then ret (outputs ++ ["Initial tensorboard data fetched for: " +:+ p])
              else ret (outputs ++ ["Warning: Could not fetch initial tensorboard data: "
                                    +:+ t_stderr tb])
          | None => ret outputs
          end ;;
        thread_start nvidia_smi_monitor_thread ;;
        store_monitoring_threads (fun l => l ++ [nvidia_smi_monitor_thread]) ;;
        let outputs := outputs ++ ["Started nvidia-smi monitoring thread (10s interval)"] in
        outputs <-
          match truthy experiment_path with
          | Some p =>
              thread_start (tensorboard_monitor_thread p) ;;
              store_monitoring_threads (fun l => l ++ [tensorboard_monitor_thread p]) ;;
              ret (outputs ++ ["Started tensorboard monitoring thread (30s interval) for: " +:+ p])
          | None => ret outputs
          end ;;
        ret (Response "started" None (Some (Py.join nl outputs)) None None)
    end.

(** [POST /api/stop-monitoring] *)
Definition stop_monitoring : M response :=
  store_monitoring_active false ;;
  ret (Response "stopped" None None None None).

(** [POST /api/sync-output] *)
Definition sync_output : M response :=
  try_except
    (r <- run_rsync (MAIN_THREAD_OUTPUT rt) (LOCAL_OUTPUT_PATH rt) true ;;
     let '(command_str, stdout, stderr, returncode) := r in
     let output := "$ " +:+ command_str +:+ nl +:+ stdout +:+ stderr in
     if (returncode =? 0)%Z
     then ret (Response "success" None (Some output) None (Some returncode))
     else ret (Response "error" (Some stderr) (Some output) None (Some returncode)))
    (fun e =>
       ret (Response "error" (Some (exc_text e))
              (Some ("Error: " +:+ exc_text e)) None (Some 1%Z))).

(** [GET /api/output] *)
Definition get_output : M response :=
  try_except
    (t <- tick ;;
     if os_path_exists rt t (LOCAL_OUTPUT_PATH rt)
     then
       t' <- tick ;;
       content <- lift (read_text rt t' (LOCAL_OUTPUT_PATH rt)) ;;
       ret (Response "success" None None (Some content) None)
     else
       ret (Response "error" (Some "Output file not found. Please sync first.")
              None None None))
    (fun e => ret (Response "error" (Some (exc_text e)) None None None)).

End Program.

(** ** Executions

    The entry points of the process: the HTTP handlers that touch the shared
    state and one turn of each collector thread.  A run is a list of such
    calls executed one after the other from the state the module body
    leaves; the results are dropped.  The dicts and lists are written only
    inside [with data_lock:], each writer in a single block, so that the
    threads of the real process interleave whole blocks; the order of the
    calls and the answers of the remote host are arbitrary here. *)
Inductive call : Type :=
| CallFetchNvidiaSmi
| CallFetchTensorboardData (experiment_path : string)
| CallListTensorboardExperiments
| CallNvidiaTurn
| CallTensorboardTurn (experiment_path : string)
| CallGetTensorboardData (experiment_path : string)
| CallGetNvidiaSmiData
| CallStartMonitoring (request_json : result request_data)
| CallStopMonitoring
| CallSyncOutput
| CallGetOutput.

Definition exec (rt : runtime) (c : call) (s : state) : state :=
  match c with
  | CallFetchNvidiaSmi => snd (fetch_nvidia_smi rt s)
  | CallFetchTensorboardData p => snd (fetch_tensorboard_data rt p s)
  | CallListTensorboardExperiments => snd (list_tensorboard_experiments rt s)
  | CallNvidiaTurn => snd (nvidia_smi_monitor_turn rt s)
  | CallTensorboardTurn p => snd (tensorboard_monitor_turn rt p s)
  | CallGetTensorboardData p => snd (get_tensorboard_data p s)
  | CallGetNvidiaSmiData => snd (get_nvidia_smi_data rt s)
  | CallStartMonitoring p => snd (start_monitoring rt p s)
  | CallStopMonitoring => snd (stop_monitoring s)
  | CallSyncOutput => snd (sync_output rt s)
  | CallGetOutput => snd (get_output rt s)
  end.

Definition run (rt : runtime) (calls : list call) (s : state) : state :=
  fold_left (fun s c => exec rt c s) calls s.

(** ** Vocabulary of the properties *)

(** The five sequences of the GPU window have one length. *)
Definition equal_lengths (w : gpu_window) : Prop :=
  length (temperature w) = length (timestamps w)
  /\ length (power w) = length (timestamps w)
  /\ length (memory_used w) = length (timestamps w)
  /\ length (memory_total w) = length (timestamps w).

(** The window after one more sample, each sequence cut to its newest 100
    elements. *)
Definition slide (w : gpu_window) (ts : string) (a b c d : Py.float) : gpu_window :=
  GpuWindow (Py.last_n 100 (timestamps w ++ [ts]))
            (Py.last_n 100 (temperature w ++ [a]))
            (Py.last_n 100 (power w ++ [b]))
            (Py.last_n 100 (memory_used w ++ [c]))
            (Py.last_n 100 (memory_total w ++ [d])).

(** One more element on a sequence of capacity 100: a full sequence gives
    up its first, oldest element. *)
Definition evict_oldest {A} (l : list A) (x : A) : list A :=
  if (length l <? 100)%nat then l ++ [x] else tail l ++ [x].

(** Two states agree on every global of the module. *)
Definition same_globals (s s' : state) : Prop :=
  tensorboard_data s' = tensorboard_data s
  /\ nvidia_smi_data s' = nvidia_smi_data s
  /\ tensorboard_experiments s' = tensorboard_experiments s
  /\ monitoring_active s' = monitoring_active s
  /\ monitoring_threads s' = monitoring_threads s.

(** The globals that the program writes inside [with data_lock:]; the
    other two are written outside it. *)
Definition guarded (g : shared) : bool :=
  match g with
  | G_nvidia_smi_data | G_tensorboard_data | G_tensorboard_experiments => true
  | G_monitoring_active | G_monitoring_threads => false
  end.

Definition disciplined (e : event) : Prop :=
  match e with
  | Write g locked => locked = guarded g
  | _ => True
  end.

(** What holds between two calls of an execution. *)
Record Inv (s : state) : Prop := {
  inv_unlocked : lock_held s = false;
  inv_trace : Forall disciplined (trace s);
  inv_lengths : equal_lengths (nvidia_smi_data s);
  inv_bound : length (timestamps (nvidia_smi_data s)) <= 100
}.

(** The fields of the sensor line as the sampler reads them. *)
Definition fields (stdout : string) : list string :=
  Py.split "," (Py.strip stdout).

(** Following the specification's words, "one comma-separated line of four
    numeric fields": exactly four fields, each accepted by [float]. *)
Definition four_numeric_fields (stdout : string) : bool :=
  match map (fun v => Py.parse_float (Py.strip v)) (fields stdout) with
  | [Some _; Some _; Some _; Some _] => true
  | _ => false
  end.

(** *** Concrete worlds for the closed examples *)

Definition lab (run_child : nat -> list string -> result CompletedProcess)
  (loads : string -> result json) (output_synced : bool) : runtime :=
  Runtime "gpu-host" "22" "/home/me/.ssh/id_ed25519" "trainer"
    "/data/runs" "/data/samples" "/home/trainer/venv" "/data/train.log"
    "/srv/dashboard/static/output.txt" "/srv/dashboard/extract_tensorboard.py"
    run_child
    (fun _ => "2024-05-01T12:00:00.000000")
    (fun _ _ => output_synced)
    (fun _ _ => Raise (Exception "FileNotFoundError" "[Errno 2] No such file or directory"))
    loads
    (fun s => "'" +:+ s +:+ "'")
    (fun op _ => "unsupported operand for " +:+ op).

Definition no_json (text : string) : result json :=
  Raise (Exception "JSONDecodeError" "Expecting value: line 1 column 1 (char 0)").

(** Every child process ends with the same captured result. *)
Definition always (cp : CompletedProcess) : nat -> list string -> result CompletedProcess :=
  fun _ _ => Return cp.

(** The [ssh] binary is missing: [subprocess.run] raises. *)
Definition ssh_missing : nat -> list string -> result CompletedProcess :=
  fun _ _ => Raise (Exception "FileNotFoundError"
                      "[Errno 2] No such file or directory: 'ssh'").

(** The helper's error payload, [{"error": "x"}], and its decoding. *)
Definition error_payload : string :=
  "{" +:+ dq +:+ "error" +:+ dq +:+ ": " +:+ dq +:+ "x" +:+ dq +:+ "}".

(** A scalar payload, [{"loss": []}], standing for a successful extraction. *)
Definition loss_payload : string :=
  "{" +:+ dq +:+ "loss" +:+ dq +:+ ": []}".

Definition loads_payloads (text : string) : result json :=
  if String.eqb text error_payload then Return (JObj [("error", JStr "x")])
  else if String.eqb text loss_payload then Return (JObj [("loss", JArr [])])
  else no_json text.

(** The remote host answers every command with one healthy sensor line. *)
Definition healthy_host : runtime :=
  lab (always (Completed "45, 120.50, 2000, 8000" "" 0)) no_json false.


(** The sensor line has two fields only. *)
Definition two_fields_host : runtime :=
  lab (always (Completed "45, 120.50" "" 0)) no_json false.

(** The sensor line has a fifth field. *)
Definition extra_field_host : runtime :=
  lab (always (Completed "45, 120.50, 2000, 8000, junk" "" 0)) no_json false.

(** The helper prints its error payload and exits with status 0. *)
Definition helper_reports_error : runtime :=
  lab (always (Completed error_payload "" 0)) loads_payloads false.

(** The helper prints a scalar payload. *)
Definition helper_succeeds : runtime :=
  lab (always (Completed loss_payload "" 0)) loads_payloads false.

(** The helper prints nothing and exits with status 0. *)
Definition helper_silent : runtime :=
  lab (always (Completed "" "" 0)) loads_payloads false.

(** [mkdir] is refused, every later command succeeds with no output. *)
Definition mkdir_refused_host : runtime :=
  lab (fun t _ =>
         match t with
         | O => Return (Completed "" "mkdir: cannot create directory: Permission denied" 1)
         | S _ => Return (Completed "" "" 0)
         end)
    no_json false.

(** ** The rest of [app.py] *)

(** *** Start-up validation (module body) *)

Definition REQUIRED_ENV_VARS : list string :=
  ["SSH_HOST"; "SSH_PORT"; "SSH_KEY_PATH"; "SSH_USERNAME";
   "TENSORBOARD_LOGS_PATH"; "IMAGE_SAMPLES_PATH"; "REMOTE_VENV_PATH";
   "MAIN_THREAD_OUTPUT"].

(** Truth value of [os.getenv(var)]: unset and empty are both false. *)
Definition env_truthy (value : option string) : bool :=
  match value with
  | Some v => nonempty v
  | None => false
  end.

(** [[var for var in REQUIRED_ENV_VARS if not os.getenv(var)]] *)
Definition missing_vars (getenv : string -> option string) : list string :=
  filter (fun var => env_truthy (getenv var) = false) REQUIRED_ENV_VARS.

(** How the import of the module ends: [sys.exit(1)] after two printed
    lines, or the module body goes on to build the application. *)
Inductive startup : Type :=
| SysExit (code : Z) (printed : list string)
| Continues.

Definition validate_environment (getenv : string -> option string) : startup :=
  match missing_vars getenv with
  | [] => Continues
  | _ :: _ =>
      SysExit 1
        ["ERROR: Missing required environment variables: "
         +:+ Py.join ", " (missing_vars getenv);
         "Please create an .env file with all required variables."]
  end.

(** *** [GET /api/experiments] *)

(** The JSON body of [GET /api/experiments]. *)
Record experiments_response : Type := ExperimentsResponse {
  x_experiments : list string;
  x_error : option string;
  x_command : string;
  x_stdout : string;
  x_stderr : string;
  x_returncode : Z
}.

Definition get_experiments_command (rt : runtime) : string :=
  "find " +:+ TENSORBOARD_LOGS_PATH rt +:+ " -type f -name " +:+ dq
  +:+ "events.out.tfevents.*" +:+ dq +:+ " -exec dirname {} \; | sort -u".

Definition get_experiments (rt : runtime) : M experiments_response :=
  let command := get_experiments_command rt in
  try_except
    (r <- run_ssh_command rt command ;;
     let '(stdout, stderr, returncode) := r in
     let experiments :=
       if nonempty stdout then Py.split lf (Py.strip stdout) else [] in
     let experiments := filter (fun exp => nonempty exp = true) experiments in
     ret (ExperimentsResponse experiments None command stdout stderr returncode))
    (fun e =>
       ret (ExperimentsResponse [] (Some (exc_text e)) command "" (exc_text e) 1)).

(** ** [extract_tensorboard.py]

    The helper that runs on the remote host.  The TensorBoard library is
    outside the repository: its import on line 2 is one oracle,
    [EventAccumulator(path)], [Reload()] and [Tags()['scalars']] another and
    [Scalars(tag)] a third; each may raise.  What the script prints is kept
    as the JSON value handed to [json.dumps]; the serialisation itself is
    not modelled. *)

(** A [ScalarEvent] of the event accumulator. *)
Record ScalarEvent : Type := Scalar {
  wall_time : Py.float;
  step : Z;
  value : Py.float
}.

(** [d[key] = v] on a dict kept as its items: an existing key keeps its
    place. *)
Fixpoint dict_set (key : string) (v : json) (members : list (string * json))
  : list (string * json) :=
  match members with
  | [] => [(key, v)]
  | (k, x) :: rest =>
      if String.eqb k key then (k, v) :: rest
      else (k, x) :: dict_set key v rest
  end.

(** The dict stored under one tag. *)
Definition scalar_entry (events : list ScalarEvent) : json :=
  JObj [("steps", JArr (map (fun e => JInt (step e)) events));
        ("values", JArr (map (fun e => JFloat (value e)) events));
        ("wall_times", JArr (map (fun e => JFloat (wall_time e)) events))].

Section Extract.

Variable import_event_accumulator : result unit.
Variable scalar_tags : string -> result (list string).
Variable Scalars : string -> string -> result (list ScalarEvent).

(** [for tag in ...: data[tag] = {...}] *)
Fixpoint collect_scalars (experiment_path : string) (tags : list string)
  (data : list (string * json)) : result (list (string * json)) :=
  match tags with
  | [] => Return data
  | tag :: rest =>
      match Scalars experiment_path tag with
      | Return events =>
          collect_scalars experiment_path rest
            (dict_set tag (scalar_entry events) data)
      | Raise e => Raise e
      end
  end.

(** The script, from [sys.argv]: the document it prints on its standard
    output, if any, and its exit status.  The import stands before the
    [try] and before the test of [sys.argv]: when it raises, the interpreter
    ends with status 1 and a traceback on the standard error, and nothing is
    printed. *)
Definition extract_tensorboard (argv : list string) : option json * Z :=
  match import_event_accumulator with
  | Raise _ => (None, 1%Z)
  | Return _ =>
      match argv with
      | [] | [_] => (Some (JObj [("error", JStr "No experiment path provided")]), 1%Z)
      | _ :: experiment_path :: _ =>
          match scalar_tags experiment_path with
          | Return tags =>
              match collect_scalars experiment_path tags [] with
              | Return data => (Some (JObj data), 0%Z)
              | Raise e => (Some (JObj [("error", JStr (exc_text e))]), 1%Z)
              end
          | Raise e => (Some (JObj [("error", JStr (exc_text e))]), 1%Z)
          end
      end
  end.

End Extract.

(** ** More vocabulary *)

(** The sample that the sampler reads off a sensor output, if any: the
    first four fields, each accepted by [float]. *)
Definition read_sample (stdout : string)
  : option (Py.float * Py.float * Py.float * Py.float) :=
  match fields stdout with
  | v0 :: v1 :: v2 :: v3 :: _ =>
      match Py.parse_float (Py.strip v0), Py.parse_float (Py.strip v1),
            Py.parse_float (Py.strip v2), Py.parse_float (Py.strip v3) with
      | Some a, Some b, Some c, Some d => Some (a, b, c, d)
      | _, _, _, _ => None
      end
  | _ => None
  end.

(** Every key of the experiment-metrics mapping is its own normal form. *)
Definition keys_normalized (m : gmap string json) : Prop :=
  forall k v, m !! k = Some v -> Py.lstrip "/" k = k.

(** A stored value passed the test ['error' in data] with the answer no. *)
Definition passed_error_test (rt : runtime) (v : json) : Prop :=
  forall s, fst (contains rt "error" v s) = Return false.

(** Spawned child processes in a trace, in order. *)
Definition spawned (t : list event) : list (list string) :=
  omap (fun e => match e with Spawn argv => Some argv | _ => None end) t.

(** Started threads in a trace, in order. *)
Definition started (t : list event) : list thread :=
  omap (fun e => match e with ThreadStart th => Some th | _ => None end) t.

(** The events that a call appended to the trace. *)
Definition new_events (s s' : state) : list event :=
  drop (length (trace s)) (trace s').

(** A remote host for the helper: every command ends with the given
    process, and stdout decodes to the given document. *)
Definition helper_host (cp : CompletedProcess) (doc : json) : runtime :=
  lab (always cp) (fun text => if String.eqb text (cp_stdout cp) then Return doc
                               else no_json text) false.

(** A list of characters without white space. *)
Definition no_space (l : list ascii) : Prop :=
  Forall (fun c => Py.isspace c = false) l.

(** The sensor answers with one line per GPU, for two GPUs. *)
Definition two_gpu_host : runtime :=
  lab (always (Completed ("45, 120.50, 2000, 8000" +:+ nl
                          +:+ "47, 131.00, 4000, 8000" +:+ nl) "" 0))
    no_json false.

(** [nvidia-smi] is not installed on the remote host. *)
Definition sensor_absent_host : runtime :=
  lab (always (Completed "" "bash: nvidia-smi: command not found" 127))
    no_json false.

(** The helper crashes before its own handler and prints a traceback. *)
Definition traceback_host : runtime :=
  lab (always (Completed "Traceback (most recent call last):" "" 0)) no_json false.

(** The output file has been synced and can be read. *)
Definition synced_host : runtime :=
  Runtime "gpu-host" "22" "/home/me/.ssh/id_ed25519" "trainer"
    "/data/runs" "/data/samples" "/home/trainer/venv" "/data/train.log"
    "/srv/dashboard/static/output.txt" "/srv/dashboard/extract_tensorboard.py"
    (always (Completed "" "" 0))
    (fun _ => "2024-05-01T12:00:00.000000")
    (fun _ _ => true)
    (fun _ _ => Return "epoch 1: loss 0.52")
    no_json
    (fun s => "'" +:+ s +:+ "'")
    (fun op _ => "unsupported operand for " +:+ op).

(** The collector threads of a session that was started with the given
    [experiment_path]. *)
Definition session_threads (experiment_path : option string) : list thread :=
  nvidia_smi_monitor_thread
  :: match truthy experiment_path with
     | Some p => [tensorboard_monitor_thread p]
     | None => []
     end.

(** Every remote command succeeds and prints nothing. *)
Definition silent_host : runtime :=
  lab (always (Completed "" "" 0)) no_json false.

(** An experiment with the scalar tags [loss] and [error], one event each. *)
Definition error_tag_tags (experiment_path : string) : result (list string) :=
  Return ["loss"; "error"].

Definition error_tag_scalars (experiment_path tag : string)
  : result (list ScalarEvent) :=
  Return [Scalar (Py.Finite false 1714564800 0) 1 (Py.Finite false 5 (-1))].

Definition error_tag_document : json :=
  default JNull
    (fst (extract_tensorboard (Return tt) error_tag_tags error_tag_scalars
            ["extract_tensorboard.py"; "runs/a"])).

(** The remote host runs the helper on that experiment; the text stands
    for the serialised document. *)
Definition error_tag_host : runtime :=
  helper_host (Completed "(scalars of loss and error)" "" 0) error_tag_document.

(** An experiment directory that the event reader cannot open. *)
Definition missing_run_tags (experiment_path : string) : result (list string) :=
  Raise (Exception "FileNotFoundError" "No such directory").

Definition missing_run_host : runtime :=
  helper_host (Completed "(error document)" "" 1)
    (default JNull
       (fst (extract_tensorboard (Return tt) missing_run_tags error_tag_scalars
               ["extract_tensorboard.py"; "runs/gone"]))).

(** [n] slashes. *)
Fixpoint slashes (n : nat) : string :=
  match n with
  | O => EmptyString
  | S k => String "/" (slashes k)
  end.

(** The experiment path of a request whose body could be read. *)
Definition requested_path (request_json : result request_data) : option string :=
  match request_json with
  | Return (Dict experiment_path) => experiment_path
  | _ => None
  end.

(** The spawn of the first child fails, every later child succeeds with no
    output. *)
Definition mkdir_spawn_fails_host : runtime :=
  lab (fun t _ =>
         match t with
         | O => Raise (Exception "BlockingIOError"
                         "[Errno 11] Resource temporarily unavailable")
         | S _ => Return (Completed "" "" 0)
         end)
    no_json false.

(** The remote interpreter has no TensorBoard: the helper prints nothing. *)
Definition no_tensorboard_host : runtime :=
  lab (always (Completed "" "ModuleNotFoundError: No module named 'tensorboard'" 1))
    no_json false.

(** ** Symbolic execution of the monadic bodies *)

Ltac run_monad :=
  cbv beta iota zeta delta
    [bind ret raise try_except with_lock lift load tick emit set_lock
     store_nvidia_smi_data store_tensorboard_data store_tensorboard_experiments
     store_monitoring_active store_monitoring_threads thread_start
     subprocess_run_ run_ssh_command run_rsync datetime_now getitem float
     contains subscript shallow_copy get_experiment_path fst snd
     tensorboard_data nvidia_smi_data tensorboard_experiments monitoring_active
     monitoring_threads lock_held clock trace
     cp_stdout cp_stderr cp_returncode] in *.

(** Split on the innermost scrutinee of the goal; a call of a collector is
    left to its lemma. *)
Ltac branch :=
  match goal with
  | |- context [match ?x with _ => _ end] =>
      lazymatch x with
      | context [match _ with _ => _ end] => fail
      | fetch_nvidia_smi _ _ => fail
      | fetch_tensorboard_data _ _ _ => fail
      | _ => destruct x eqn:?
      end
  end; run_monad.

Ltac trace_ok :=
  repeat (apply Forall_app; split); auto;
  repeat (apply Forall_cons; split); auto using Forall_nil; exact I || reflexivity.

(** ** The built-ins on concrete inputs *)

Example strip_line :
  Py.strip (" 45, 120.50, 2000, 8000" +:+ nl) = "45, 120.50, 2000, 8000".
Proof. reflexivity. Qed.

Example split_line : Py.split "," "45, 120.50" = ["45"; " 120.50"].
Proof. reflexivity. Qed.

Example split_empty : Py.split "," "" = [""].
Proof. reflexivity. Qed.

Example lstrip_slashes : Py.lstrip "/" "//runs/a/" = "runs/a/".
Proof. reflexivity. Qed.

Example float_plain : Py.parse_float " 120.50" = Some (Py.Finite false 12050 (-2)).
Proof. reflexivity. Qed.

Example float_exponent : Py.parse_float "-1_0.e+3" = Some (Py.Finite true 10 3).
Proof. reflexivity. Qed.

Example float_words :
  Py.parse_float "-INF" = Some (Py.Infinity true)
  /\ Py.parse_float "nan" = Some Py.NaN.
Proof. split; reflexivity. Qed.

Example float_rejects :
  map Py.parse_float
    ["abc"; ""; "."; "1_"; "1__0"; "8000" +:+ nl +:+ "46"; "[N/A]"; "1e"; "1 2"; "junk"]
  = [None; None; None; None; None; None; None; None; None; None].
Proof. reflexivity. Qed.

Example last_n_slice : Py.last_n 3 [1; 2; 3; 4; 5] = [3; 4; 5] /\ Py.last_n 3 [1; 2] = [1; 2].
Proof. split; reflexivity. Qed.

(** ** The collectors on concrete worlds *)

Example healthy_sample :
  nvidia_smi_data (snd (fetch_nvidia_smi healthy_host initial_state))
  = GpuWindow ["2024-05-01T12:00:00.000000"]
      [Py.Finite false 45 0] [Py.Finite false 12050 (-2)]
      [Py.Finite false 2000 0] [Py.Finite false 8000 0].
Proof. reflexivity. Qed.

Example window_after_103_samples :
  length (timestamps (nvidia_smi_data
            (run healthy_host (repeat CallFetchNvidiaSmi 103) initial_state))) = 100
  /\ length (memory_total (nvidia_smi_data
               (run healthy_host (repeat CallFetchNvidiaSmi 103) initial_state))) = 100.
Proof. split; vm_compute; reflexivity. Qed.

Example successful_fetch_is_stored :
  tensorboard_data (snd (fetch_tensorboard_data helper_succeeds "/runs/a" initial_state))
  !! "runs/a" = Some (JObj [("loss", JArr [])]).
Proof. vm_compute. reflexivity. Qed.

(** ** Sliding window *)

Lemma length_last_n {A} n (l : list A) :
  length (Py.last_n n l) = Nat.min n (length l).
Proof. unfold Py.last_n. rewrite length_skipn. lia. Qed.

Lemma last_n_short {A} n (l : list A) : length l <= n -> Py.last_n n l = l.
Proof.
  intros H. unfold Py.last_n. replace (length l - n) with 0 by lia. reflexivity.
Qed.

(** A full sequence loses its oldest element, a shorter one loses nothing. *)
Lemma last_n_push {A} n (l : list A) x :
  0 < n -> length l <= n ->
  Py.last_n n (l ++ [x]) = if (length l <? n)%nat then l ++ [x] else tail l ++ [x].
Proof.
  intros Hn H. unfold Py.last_n. rewrite length_app. simpl.
  destruct (length l <? n)%nat eqn:E.
  - apply Nat.ltb_lt in E. replace (length l + 1 - n) with 0 by lia. reflexivity.
  - apply Nat.ltb_ge in E. replace (length l + 1 - n) with 1 by lia.
    destruct l; simpl in *; [lia | reflexivity].
Qed.

Lemma fetch_nvidia_smi_window rt s :
  equal_lengths (nvidia_smi_data s) ->
  length (timestamps (nvidia_smi_data s)) <= 100 ->
  let w := nvidia_smi_data s in
  let w' := nvidia_smi_data (snd (fetch_nvidia_smi rt s)) in
  w' = w \/ exists ts a b c d, w' = slide w ts a b c d.
Proof.
  intros (H1 & H2 & H3 & H4) Hb.
  destruct s as [tb w ex act thr lk ck tr]. simpl in *.
  unfold fetch_nvidia_smi. run_monad.
  repeat branch; auto.
  all: right; do 5 eexists; unfold slide; destruct w; simpl in *.
  - unfold trim_memory_total, trim_memory_used, trim_power, trim_temperature,
      trim_timestamps; simpl. reflexivity.
  - apply Nat.ltb_ge in Heqb1. rewrite length_app in Heqb1. simpl in Heqb1.
    rewrite !last_n_short by (rewrite length_app; simpl; lia). reflexivity.
Qed.

(** ** What the collectors leave behind *)

Lemma slide_lengths w ts a b c d :
  equal_lengths w -> equal_lengths (slide w ts a b c d).
Proof.
  intros (H1 & H2 & H3 & H4). unfold equal_lengths, slide; simpl.
  rewrite !length_last_n, !length_app; cbn [length]. lia.
Qed.

Lemma slide_bound w ts a b c d : length (timestamps (slide w ts a b c d)) <= 100.
Proof. unfold slide; simpl. rewrite length_last_n. lia. Qed.

Lemma fetch_nvidia_smi_post rt s :
  let s' := snd (fetch_nvidia_smi rt s) in
  (exists g, fst (fetch_nvidia_smi rt s) = Return g)
  /\ tensorboard_data s' = tensorboard_data s
  /\ tensorboard_experiments s' = tensorboard_experiments s
  /\ monitoring_active s' = monitoring_active s
  /\ monitoring_threads s' = monitoring_threads s
  /\ (Inv s -> Inv s').
Proof.
  pose proof (fetch_nvidia_smi_window rt s) as Hw.
  destruct s as [tb w ex act thr lk ck tr]. simpl in *.
  assert (Hinv : forall s', lock_held s' = false ->
             (Forall disciplined tr -> Forall disciplined (trace s')) ->
             nvidia_smi_data (snd (fetch_nvidia_smi rt (State tb w ex act thr lk ck tr)))
             = nvidia_smi_data s' ->
             Inv (State tb w ex act thr lk ck tr) -> Inv s').
  { intros s' Hl Ht Hs [I1 I2 I3 I4]. simpl in *.
    specialize (Hw I3 I4). rewrite Hs in Hw.
    split; auto.
    - destruct Hw as [-> | (? & ? & ? & ? & ? & ->)]; auto using slide_lengths.
    - destruct Hw as [-> | (? & ? & ? & ? & ? & ->)]; auto using slide_bound. }
  clear Hw. revert Hinv.
  unfold fetch_nvidia_smi. run_monad.
  repeat branch; intros Hinv; (split; [eexists; reflexivity|]);
    repeat (split; [reflexivity|]); intros HI; apply Hinv; auto;
    try (destruct HI; assumption); simpl; intros; trace_ok.
Qed.

Lemma fetch_tensorboard_data_post rt p s :
  let s' := snd (fetch_tensorboard_data rt p s) in
  (exists t, fst (fetch_tensorboard_data rt p s) = Return t)
  /\ nvidia_smi_data s' = nvidia_smi_data s
  /\ tensorboard_experiments s' = tensorboard_experiments s
  /\ monitoring_active s' = monitoring_active s
  /\ monitoring_threads s' = monitoring_threads s
  /\ (Inv s -> Inv s').
Proof.
  destruct s as [tb w ex act thr lk ck tr].
  unfold fetch_tensorboard_data. run_monad.
  repeat branch; (split; [eexists; reflexivity|]);
    repeat (split; [reflexivity|]); intros [I1 I2 I3 I4]; simpl in *;
    split; simpl; auto; trace_ok.
Qed.

(** ** The invariant of an execution *)

Ltac call_collector :=
  match goal with
  | |- context [fetch_nvidia_smi ?rt ?S] =>
      let H := fresh "Hpost" in
      pose proof (fetch_nvidia_smi_post rt S) as H;
      destruct (fetch_nvidia_smi rt S) as [? [? ? ? ? ? ? ? ?]];
      cbn [fst snd tensorboard_data nvidia_smi_data tensorboard_experiments
           monitoring_active monitoring_threads] in H;
      destruct H as ([? ->] & -> & -> & -> & -> & H)
  | |- context [fetch_tensorboard_data ?rt ?p ?S] =>
      let H := fresh "Hpost" in
      pose proof (fetch_tensorboard_data_post rt p S) as H;
      destruct (fetch_tensorboard_data rt p S) as [? [? ? ? ? ? ? ? ?]];
      cbn [fst snd tensorboard_data nvidia_smi_data tensorboard_experiments
           monitoring_active monitoring_threads] in H;
      destruct H as ([? ->] & -> & -> & -> & -> & H)
  end; run_monad.

Ltac open_Inv :=
  repeat match goal with
         | H : Inv (State _ _ _ _ _ _ _ _) |- _ =>
             destruct H as [? ? ? ?];
             cbn [lock_held trace nvidia_smi_data] in *; subst
         end.

Ltac solve_Inv :=
  open_Inv; split; cbn [lock_held trace nvidia_smi_data]; auto; trace_ok.

Ltac chain_Inv :=
  repeat match goal with
         | H : Inv ?S -> Inv _ |- _ =>
             let HS := fresh "HS" in
             assert (HS : Inv S) by solve_Inv; specialize (H HS); clear HS
         end.

Lemma list_tensorboard_experiments_Inv rt s :
  Inv s -> Inv (snd (list_tensorboard_experiments rt s)).
Proof.
  destruct s. intros HI. unfold list_tensorboard_experiments. run_monad.
  repeat branch; solve_Inv.
Qed.

Lemma get_tensorboard_data_Inv p s : Inv s -> Inv (snd (get_tensorboard_data p s)).
Proof. destruct s. intros HI. unfold get_tensorboard_data. run_monad. solve_Inv. Qed.

Lemma get_nvidia_smi_data_Inv rt s : Inv s -> Inv (snd (get_nvidia_smi_data rt s)).
Proof.
  destruct s. intros HI. unfold get_nvidia_smi_data. run_monad.
  call_collector. chain_Inv. solve_Inv.
Qed.

Lemma stop_monitoring_Inv s : Inv s -> Inv (snd (stop_monitoring s)).
Proof. destruct s. intros HI. unfold stop_monitoring. run_monad. solve_Inv. Qed.

Lemma sync_output_Inv rt s : Inv s -> Inv (snd (sync_output rt s)).
Proof.
  destruct s. intros HI. unfold sync_output. run_monad. repeat branch; solve_Inv.
Qed.

Lemma get_output_Inv rt s : Inv s -> Inv (snd (get_output rt s)).
Proof.
  destruct s. intros HI. unfold get_output. run_monad. repeat branch; solve_Inv.
Qed.

Lemma start_monitoring_Inv rt p s : Inv s -> Inv (snd (start_monitoring rt p s)).
Proof.
  destruct s. intros HI. unfold start_monitoring, start_error. run_monad.
  destruct monitoring_active0; [assumption|].
  repeat (branch || (call_collector; chain_Inv)); solve_Inv.
Qed.

Lemma exec_Inv rt c s : Inv s -> Inv (exec rt c s).
Proof.
  intros HI. destruct c; cbn [exec].
  - now apply fetch_nvidia_smi_post.
  - now apply fetch_tensorboard_data_post.
  - now apply list_tensorboard_experiments_Inv.
  - unfold nvidia_smi_monitor_turn. destruct s. run_monad.
    destruct monitoring_active0; [|assumption].
    call_collector. auto.
  - unfold tensorboard_monitor_turn. destruct s. run_monad.
    destruct monitoring_active0; [|assumption].
    call_collector. auto.
  - now apply get_tensorboard_data_Inv.
  - now apply get_nvidia_smi_data_Inv.
  - now apply start_monitoring_Inv.
  - now apply stop_monitoring_Inv.
  - now apply sync_output_Inv.
  - now apply get_output_Inv.
Qed.

Lemma initial_Inv : Inv initial_state.
Proof. split; simpl; [reflexivity | constructor | repeat split | lia]. Qed.

Lemma run_Inv rt calls s : Inv s -> Inv (run rt calls s).
Proof.
  revert s. induction calls as [|c calls IH]; intros s HI; simpl; auto.
  apply IH, exec_Inv, HI.
Qed.

(** C1.  Whatever calls the process has served since it was started (HTTP
    handlers and turns of the collector threads, in any order and with any
    behaviour of the remote host), the five sequences of the GPU window
    have one length and that length is at most 100.  One more invocation of
    the sampler either leaves the window alone or appends one element to
    each sequence and keeps the newest 100 of each; as the sequences were
    at most 100 long, that removes the first, oldest element of each
    sequence exactly when they were full. *)
Theorem gpu_window_bounded (rt : runtime) (calls : list call) :
  let s := run rt calls initial_state in
  let w := nvidia_smi_data s in
  let w' := nvidia_smi_data (snd (fetch_nvidia_smi rt s)) in
  equal_lengths w
  /\ length (timestamps w) <= 100
  /\ (w' = w
      \/ exists ts a b c d,
          w' = GpuWindow (Py.last_n 100 (timestamps w ++ [ts]))
                         (Py.last_n 100 (temperature w ++ [a]))
                         (Py.last_n 100 (power w ++ [b]))
                         (Py.last_n 100 (memory_used w ++ [c]))
                         (Py.last_n 100 (memory_total w ++ [d]))
          /\ w' = GpuWindow (evict_oldest (timestamps w) ts)
                            (evict_oldest (temperature w) a)
                            (evict_oldest (power w) b)
                            (evict_oldest (memory_used w) c)
                            (evict_oldest (memory_total w) d)).
Proof.
  intros s w w'.
  destruct (run_Inv rt calls initial_state initial_Inv) as [_ _ Hl Hb].
  fold s in Hl, Hb. fold w in Hl, Hb.
  split; [exact Hl|]. split; [exact Hb|].
  destruct (fetch_nvidia_smi_window rt s Hl Hb) as [H | (ts & a & b & c & d & H)].
  - left. exact H.
  - right. exists ts, a, b, c, d. fold w w' in H. rewrite H.
    split; [reflexivity|]. destruct Hl as (H1 & H2 & H3 & H4).
    unfold slide, evict_oldest.
    rewrite !last_n_push by lia. reflexivity.
Qed.

(** C2, as the program has it.  In every execution, each write to the GPU
    window, to the experiment-metrics mapping and to the experiment list
    happens while [data_lock] is held, and each write to the active-session
    flag and to the list of thread handles happens while it is not. *)
Theorem writes_follow_lock_discipline (rt : runtime) (calls : list call)
  (g : shared) (locked : bool) :
  In (Write g locked) (trace (run rt calls initial_state)) ->
  locked = guarded g.
Proof.
  intros Hin.
  destruct (run_Inv rt calls initial_state initial_Inv) as [_ Ht _ _].
  rewrite List.Forall_forall in Ht. exact (Ht _ Hin).
Qed.

Lemma writes_follow_lock_discipline_witness :
  In (Write G_nvidia_smi_data true)
     (trace (run healthy_host
               [CallFetchNvidiaSmi] initial_state))
  /\ true = guarded G_nvidia_smi_data.
Proof.
  assert (H : In (Write G_nvidia_smi_data true)
     (trace (run healthy_host
               [CallFetchNvidiaSmi] initial_state))).
  { vm_compute. tauto. }
  split; [exact H|].
  exact (writes_follow_lock_discipline _ _ _ _ H).
Defined.

(** C2, as stated, fails: [stop_monitoring] assigns the active-session flag
    without holding the lock. *)
Lemma flag_written_outside_lock :
  trace (snd (stop_monitoring initial_state)) = [Write G_monitoring_active false]
  /\ ~ (forall g locked,
          In (Write g locked) (trace (snd (stop_monitoring initial_state))) ->
          locked = true).
Proof.
  split; [reflexivity|].
  intros H. specialize (H G_monitoring_active false (or_introl eq_refl)).
  discriminate H.
Qed.

(** C3, as the program has it.  The executor hands the captured output and
    the exit status of a spawned child back as data, whatever the status,
    and lets the exception of a failed spawn through to its caller.  The
    collectors catch it: each returns a result with return code 1, empty
    stdout and the failure text as stderr, and leaves every global as it
    was. *)
Theorem spawn_failure_surfaces_at_collectors
  (rt : runtime) (s : state) (command p : string) :
  fst (run_ssh_command rt command s)
  = match subprocess_run rt (clock s) (ssh_argv rt command) with
    | Return cp => Return (cp_stdout cp, cp_stderr cp, cp_returncode cp)
    | Raise e => Raise e
    end
  /\ forall e : exn,
      (forall argv, subprocess_run rt (clock s) argv = Raise e) ->
      fst (run_ssh_command rt command s) = Raise e
      /\ fst (fetch_nvidia_smi rt s)
         = Return (GpuResult nvidia_smi_command "" (exc_text e) 1)
      /\ same_globals s (snd (fetch_nvidia_smi rt s))
      /\ fst (fetch_tensorboard_data rt p s)
         = Return (TbResult None (tensorboard_command rt p) "" (exc_text e) 1 None)
      /\ same_globals s (snd (fetch_tensorboard_data rt p s))
      /\ fst (list_tensorboard_experiments rt s)
         = Return (ExperimentsResult [] (list_experiments_command rt) ""
                     (exc_text e) 1)
      /\ same_globals s (snd (list_tensorboard_experiments rt s)).
Proof.
  destruct s as [tb w ex act thr lk ck tr]. split.
  { run_monad. destruct (subprocess_run rt _ _) as [[? ? ?]|]; reflexivity. }
  intros e Hspawn. simpl in Hspawn.
  unfold fetch_nvidia_smi, fetch_tensorboard_data, list_tensorboard_experiments,
    same_globals.
  run_monad. rewrite !Hspawn. run_monad. repeat split.
Qed.

Lemma spawn_failure_surfaces_at_collectors_witness :
  (forall argv, subprocess_run (lab ssh_missing no_json false) (clock initial_state) argv
                = Raise (Exception "FileNotFoundError"
                           "[Errno 2] No such file or directory: 'ssh'"))
  /\ fst (fetch_nvidia_smi (lab ssh_missing no_json false) initial_state)
     = Return (GpuResult nvidia_smi_command ""
                 "[Errno 2] No such file or directory: 'ssh'" 1).
Proof.
  assert (H : forall argv,
             subprocess_run (lab ssh_missing no_json false) (clock initial_state) argv
             = Raise (Exception "FileNotFoundError"
                        "[Errno 2] No such file or directory: 'ssh'")).
  { intros argv. reflexivity. }
  split; [exact H|].
  exact (proj1 (proj2
    (proj2 (spawn_failure_surfaces_at_collectors _ _ "uptime" "runs/a") _ H))).
Defined.

(** C3, as stated, fails: with the [ssh] binary missing the executor itself
    raises and returns no result. *)
Lemma run_ssh_command_raises :
  fst (run_ssh_command (lab ssh_missing no_json false) "uptime" initial_state)
  = Raise (Exception "FileNotFoundError" "[Errno 2] No such file or directory: 'ssh'")
  /\ ~ (exists stdout stderr returncode,
          fst (run_ssh_command (lab ssh_missing no_json false) "uptime" initial_state)
          = Return (stdout, stderr, returncode)).
Proof.
  split; [reflexivity|]. intros (? & ? & ? & H). discriminate H.
Qed.




(** C5.  When the remote helper exits with status 0 and its standard output
    decodes to a JSON object that has an ['error'] member, the scalar fetch
    writes no global (the stored metrics of every path, this one included,
    stay as they were) and returns a result whose [data] is [None] and whose
    ['error'] is that member. *)
Theorem reported_error_leaves_metrics
  (rt : runtime) (p : string) (s : state)
  (stdout stderr : string) (members : list (string * json)) (err : json) :
  subprocess_run rt (clock s) (ssh_argv rt (tensorboard_command rt p))
  = Return (Completed stdout stderr 0) ->
  stdout <> "" ->
  json_loads rt stdout = Return (JObj members) ->
  dict_get "error" members = Some err ->
  fst (fetch_tensorboard_data rt p s)
  = Return (TbResult None (tensorboard_command rt p) stdout stderr 0 (Some err))
  /\ same_globals s (snd (fetch_tensorboard_data rt p s))
  /\ tensorboard_data (snd (fetch_tensorboard_data rt p s)) !! Py.lstrip "/" p
     = tensorboard_data s !! Py.lstrip "/" p.
Proof.
  intros Hrun Hout Hjson Herr.
  destruct s as [tb w ex act thr lk ck tr]. simpl in Hrun.
  unfold fetch_tensorboard_data, same_globals. run_monad.
  rewrite Hrun. run_monad.
  destruct stdout as [|c stdout]; [congruence|]. cbn [nonempty negb orb Z.eqb].
  rewrite Hjson. run_monad. rewrite Herr.
  rewrite bool_decide_eq_true_2 by eauto.
  repeat split.
Qed.

Lemma reported_error_leaves_metrics_witness :
  fst (fetch_tensorboard_data helper_reports_error "/runs/a" initial_state)
  = Return (TbResult None (tensorboard_command helper_reports_error "/runs/a")
              error_payload "" 0 (Some (JStr "x")))
  /\ same_globals initial_state
       (snd (fetch_tensorboard_data helper_reports_error "/runs/a" initial_state))
  /\ tensorboard_data
       (snd (fetch_tensorboard_data helper_reports_error "/runs/a" initial_state))
       !! Py.lstrip "/" "/runs/a"
     = tensorboard_data initial_state !! Py.lstrip "/" "/runs/a".
Proof.
  apply (reported_error_leaves_metrics helper_reports_error "/runs/a" initial_state
           error_payload "" [("error", JStr "x")] (JStr "x")).
  - reflexivity.
  - discriminate.
  - reflexivity.
  - reflexivity.
Defined.

(** C6, as the program has it.  When the sensor command exits with status
    0 and its output has fewer than four comma-separated fields, or one of
    its first four fields is not accepted by [float], the sampler returns
    without raising and writes no global: the window is the same before and
    after the call. *)
Theorem short_or_non_numeric_line_is_dropped
  (rt : runtime) (s : state) (stdout stderr : string) :
  subprocess_run rt (clock s) (ssh_argv rt nvidia_smi_command)
  = Return (Completed stdout stderr 0) ->
  (length (fields stdout) < 4
   \/ exists i v, i < 4 /\ nth_error (fields stdout) i = Some v
                  /\ Py.parse_float (Py.strip v) = None) ->
  nvidia_smi_data (snd (fetch_nvidia_smi rt s)) = nvidia_smi_data s
  /\ same_globals s (snd (fetch_nvidia_smi rt s))
  /\ exists g, fst (fetch_nvidia_smi rt s) = Return g.
Proof.
  intros Hrun Hbad.
  destruct s as [tb w ex act thr lk ck tr]. simpl in Hrun.
  unfold fetch_nvidia_smi, same_globals, fields in *. run_monad.
  rewrite Hrun. run_monad. cbn [Z.eqb negb].
  repeat branch; try (repeat split; eexists; reflexivity).
  all: exfalso; destruct Hbad as [Hlen | (i & v & Hi & Hv & Hf)].
  all: try (apply nth_error_None in Hlen || idtac).
  - assert (H3 : nth_error (Py.split "," (Py.strip stdout)) 3 <> None) by congruence.
    apply nth_error_Some in H3. lia.
  - destruct i as [|[|[|[|i]]]]; try lia; congruence.
  - assert (H3 : nth_error (Py.split "," (Py.strip stdout)) 3 <> None) by congruence.
    apply nth_error_Some in H3. lia.
  - destruct i as [|[|[|[|i]]]]; try lia; congruence.
Qed.

Lemma short_or_non_numeric_line_is_dropped_witness :
  nvidia_smi_data (snd (fetch_nvidia_smi two_fields_host initial_state))
  = nvidia_smi_data initial_state
  /\ same_globals initial_state (snd (fetch_nvidia_smi two_fields_host initial_state))
  /\ exists g, fst (fetch_nvidia_smi two_fields_host initial_state) = Return g.
Proof.
  apply (short_or_non_numeric_line_is_dropped two_fields_host initial_state
           "45, 120.50" "").
  - reflexivity.
  - left. vm_compute. lia.
Defined.

(** C6, as stated, fails: a line that is not four numeric fields, because a
    fifth, non-numeric field follows them, is sampled all the same. *)
Lemma extra_field_is_sampled :
  four_numeric_fields "45, 120.50, 2000, 8000, junk" = false
  /\ subprocess_run extra_field_host 0 (ssh_argv extra_field_host nvidia_smi_command)
     = Return (Completed "45, 120.50, 2000, 8000, junk" "" 0)
  /\ nvidia_smi_data (snd (fetch_nvidia_smi extra_field_host initial_state))
     = GpuWindow ["2024-05-01T12:00:00.000000"]
         [Py.Finite false 45 0] [Py.Finite false 12050 (-2)]
         [Py.Finite false 2000 0] [Py.Finite false 8000 0]
  /\ nvidia_smi_data (snd (fetch_nvidia_smi extra_field_host initial_state))
     <> nvidia_smi_data initial_state.
Proof.
  split; [reflexivity|]. split; [reflexivity|]. split; [reflexivity|].
  vm_compute. discriminate.
Qed.

(** ** Key normalisation *)

Lemma lstrip_chars_idem drop l :
  Py.lstrip_chars drop (Py.lstrip_chars drop l) = Py.lstrip_chars drop l.
Proof.
  induction l as [|c l IH]; simpl; [reflexivity|].
  destruct (drop c) eqn:E; [exact IH|]. simpl. rewrite E. reflexivity.
Qed.

Lemma lstrip_idem ch p : Py.lstrip ch (Py.lstrip ch p) = Py.lstrip ch p.
Proof.
  unfold Py.lstrip. rewrite list_ascii_of_string_of_list_ascii.
  rewrite lstrip_chars_idem. reflexivity.
Qed.

Lemma lstrip_leading ch p : Py.lstrip ch (String ch p) = Py.lstrip ch p.
Proof. unfold Py.lstrip. simpl. rewrite Ascii.eqb_refl. reflexivity. Qed.

Lemma lstrip_chars_head drop l :
  match Py.lstrip_chars drop l with
  | [] => True
  | c :: _ => drop c = false
  end.
Proof.
  induction l as [|d l IH]; simpl; [exact I|].
  destruct (drop d) eqn:Hd; [exact IH | exact Hd].
Qed.

Lemma lstrip_chars_slashes l :
  exists n,
    list_ascii_of_string (slashes n) ++ Py.lstrip_chars (Ascii.eqb "/") l = l.
Proof.
  induction l as [|c l (n & IH)]; [exists 0; reflexivity|].
  cbn [Py.lstrip_chars]. destruct (Ascii.eqb "/" c) eqn:Hc.
  - apply Ascii.eqb_eq in Hc. subst c. exists (S n). cbn. rewrite IH. reflexivity.
  - exists 0. reflexivity.
Qed.

Lemma string_of_list_ascii_app l1 l2 :
  string_of_list_ascii (l1 ++ l2)
  = (string_of_list_ascii l1 +:+ string_of_list_ascii l2)%string.
Proof. induction l1 as [|c l1 IH]; cbn; [reflexivity | rewrite IH; reflexivity]. Qed.

(** The normal form of a path is the path without its leading slashes. *)
Lemma lstrip_slashes_spec p :
  (exists n, p = slashes n +:+ Py.lstrip "/" p)
  /\ (forall rest, Py.lstrip "/" p <> String "/" rest).
Proof.
  split.
  - destruct (lstrip_chars_slashes (list_ascii_of_string p)) as (n & Hn).
    exists n. unfold Py.lstrip.
    rewrite <- (string_of_list_ascii_of_string (slashes n)) at 1.
    rewrite <- string_of_list_ascii_app, Hn, string_of_list_ascii_of_string.
    reflexivity.
  - intros rest Hrest. unfold Py.lstrip in Hrest.
    pose proof (lstrip_chars_head (Ascii.eqb "/") (list_ascii_of_string p)) as Hhead.
    destruct (Py.lstrip_chars (Ascii.eqb "/") (list_ascii_of_string p)) as [|c l];
      [discriminate Hrest|].
    cbn in Hrest. injection Hrest as -> _. discriminate Hhead.
Qed.

(** C7.  Storing and looking up experiment metrics both use the path
    without its leading slashes as the key.  The key of a path [p] is what
    is left of [p] after a run of slashes at its front has been taken off
    ([p] is that run followed by the key), and the key does not start with a
    slash; so a path without a leading slash is its own key, and the key of
    [/a/b] and of [a/b] is [a/b].  The normalisation is idempotent and sends
    ["/" ++ p] and [p] to one key.  A fetch of [p] that returns data stores
    it under the key of [p]; the lookup handler reads the entry under the
    key of the path it is given, answers the two spellings alike in every
    state, and after such a fetch returns that data for every path with the
    key of [p]. *)
Theorem lookup_ignores_leading_slashes (p : string) :
  Py.lstrip "/" (Py.lstrip "/" p) = Py.lstrip "/" p
  /\ Py.lstrip "/" ("/" +:+ p) = Py.lstrip "/" p
  /\ (forall s, fst (get_tensorboard_data ("/" +:+ p) s)
                = fst (get_tensorboard_data p s))
  /\ (forall rt s t data q,
        fst (fetch_tensorboard_data rt p s) = Return t ->
        t_data t = Some data ->
        Py.lstrip "/" q = Py.lstrip "/" p ->
        fst (get_tensorboard_data q (snd (fetch_tensorboard_data rt p s)))
        = Return data)
  /\ (exists n, p = slashes n +:+ Py.lstrip "/" p)
  /\ (forall rest, Py.lstrip "/" p <> String "/" rest)
  /\ ((forall rest, p <> String "/" rest) -> Py.lstrip "/" p = p)
  /\ (Py.lstrip "/" "/a/b" = "a/b" /\ Py.lstrip "/" "a/b" = "a/b")
  /\ (forall s, fst (get_tensorboard_data p s)
                = Return (default (JObj []) (tensorboard_data s !! Py.lstrip "/" p)))
  /\ (forall rt s t data,
        fst (fetch_tensorboard_data rt p s) = Return t ->
        t_data t = Some data ->
        tensorboard_data (snd (fetch_tensorboard_data rt p s))
        = <[Py.lstrip "/" p := data]> (tensorboard_data s)).
Proof.
  split; [apply lstrip_idem|].
  split; [apply (lstrip_leading "/" p)|].
  split.
  { intros s. unfold get_tensorboard_data.
    change ("/" +:+ p) with (String "/" p). rewrite lstrip_leading. reflexivity. }
  split.
  { intros rt s t data q Hfetch Hdata Hq. revert Hfetch.
    destruct s as [tb w ex act thr lk ck tr].
    unfold fetch_tensorboard_data, get_tensorboard_data. run_monad.
    repeat branch; intros [= <-]; try discriminate Hdata.
    all: injection Hdata as <-; rewrite Hq, lookup_insert_eq; reflexivity. }
  split; [apply lstrip_slashes_spec|].
  split; [apply lstrip_slashes_spec|].
  split.
  { intros Hp. destruct p as [|c p]; [reflexivity|].
    unfold Py.lstrip. cbn [list_ascii_of_string Py.lstrip_chars].
    destruct (Ascii.eqb "/" c) eqn:Hc.
    - apply Ascii.eqb_eq in Hc. subst c. exfalso. exact (Hp p eq_refl).
    - cbn. rewrite string_of_list_ascii_of_string. reflexivity. }
  split; [split; reflexivity|].
  split; [intros s; destruct s; reflexivity|].
  intros rt s t data Hfetch Hdata. revert Hfetch.
  destruct s as [tb w ex act thr lk ck tr].
  unfold fetch_tensorboard_data. run_monad.
  repeat branch; intros [= <-]; try discriminate Hdata.
  all: injection Hdata as <-; reflexivity.
Qed.

Lemma lookup_ignores_leading_slashes_witness :
  fst (get_tensorboard_data "/runs/a"
         (snd (fetch_tensorboard_data helper_succeeds "runs/a" initial_state)))
  = Return (JObj [("loss", JArr [])]).
Proof.
  apply (proj1 (proj2 (proj2 (proj2 (lookup_ignores_leading_slashes "runs/a"))))
           helper_succeeds initial_state
           (TbResult (Some (JObj [("loss", JArr [])]))
              (tensorboard_command helper_succeeds "runs/a") loss_payload "" 0 None)).
  - reflexivity.
  - reflexivity.
  - reflexivity.
Defined.

(** C8.  While no file exists at the local output path, [GET /api/output]
    answers with the error status and the message
    [Output file not found. Please sync first.] *)
Theorem output_before_sync (rt : runtime) (s : state) :
  os_path_exists rt (clock s) (LOCAL_OUTPUT_PATH rt) = false ->
  fst (get_output rt s)
  = Return (Response "error" (Some "Output file not found. Please sync first.")
              None None None).
Proof.
  intros Hmissing. destruct s as [tb w ex act thr lk ck tr]. simpl in Hmissing.
  unfold get_output. run_monad. rewrite Hmissing. reflexivity.
Qed.

Lemma output_before_sync_witness :
  os_path_exists healthy_host (clock initial_state) (LOCAL_OUTPUT_PATH healthy_host)
  = false
  /\ fst (get_output healthy_host initial_state)
     = Return (Response "error" (Some "Output file not found. Please sync first.")
                 None None None).
Proof.
  split; [reflexivity|].
  apply (output_before_sync healthy_host initial_state). reflexivity.
Defined.

(** C9.  A scalar fetch whose remote command exits with status 0 and prints
    nothing takes the same path as one that exits with a non-zero status:
    the result carries [data = None] next to the captured output and
    status, no ['error'] member, and no global is written, so no entry of
    the experiment-metrics mapping is created or replaced.  The statement
    holds for every [json.loads], which is not consulted. *)
Theorem empty_output_is_a_failure
  (rt : runtime) (p : string) (s : state) (cp : CompletedProcess) :
  subprocess_run rt (clock s) (ssh_argv rt (tensorboard_command rt p)) = Return cp ->
  cp_returncode cp <> 0%Z \/ cp_stdout cp = "" ->
  fst (fetch_tensorboard_data rt p s)
  = Return (TbResult None (tensorboard_command rt p) (cp_stdout cp) (cp_stderr cp)
              (cp_returncode cp) None)
  /\ same_globals s (snd (fetch_tensorboard_data rt p s))
  /\ tensorboard_data (snd (fetch_tensorboard_data rt p s)) = tensorboard_data s.
Proof.
  intros Hrun Hfail.
  destruct s as [tb w ex act thr lk ck tr]. destruct cp as [stdout stderr rc].
  simpl in *. unfold fetch_tensorboard_data, same_globals. run_monad.
  rewrite Hrun. run_monad.
  assert (Hcond : negb (rc =? 0)%Z || negb (nonempty stdout) = true).
  { destruct Hfail as [Hrc | ->].
    - apply Z.eqb_neq in Hrc. rewrite Hrc. reflexivity.
    - apply orb_true_r. }
  rewrite Hcond. repeat split.
Qed.

Lemma empty_output_is_a_failure_witness :
  fst (fetch_tensorboard_data helper_silent "runs/a" initial_state)
  = Return (TbResult None (tensorboard_command helper_silent "runs/a") "" "" 0 None)
  /\ same_globals initial_state
       (snd (fetch_tensorboard_data helper_silent "runs/a" initial_state))
  /\ tensorboard_data (snd (fetch_tensorboard_data helper_silent "runs/a" initial_state))
     = tensorboard_data initial_state.
Proof.
  apply (empty_output_is_a_failure helper_silent "runs/a" initial_state
           (Completed "" "" 0)).
  - reflexivity.
  - right. reflexivity.
Defined.

(** * Further properties of the program *)

(** ** The GPU sampler *)

(** The sampler on a readable output, in a state whose window is well
    formed. *)
Lemma fetch_nvidia_smi_readable rt s stdout stderr a b c d :
  equal_lengths (nvidia_smi_data s) ->
  length (timestamps (nvidia_smi_data s)) <= 100 ->
  subprocess_run rt (clock s) (ssh_argv rt nvidia_smi_command)
  = Return (Completed stdout stderr 0) ->
  read_sample stdout = Some (a, b, c, d) ->
  fst (fetch_nvidia_smi rt s) = Return (GpuResult nvidia_smi_command stdout stderr 0)
  /\ nvidia_smi_data (snd (fetch_nvidia_smi rt s))
     = GpuWindow (evict_oldest (timestamps (nvidia_smi_data s))
                    (datetime_now_isoformat rt (S (clock s))))
                 (evict_oldest (temperature (nvidia_smi_data s)) a)
                 (evict_oldest (power (nvidia_smi_data s)) b)
                 (evict_oldest (memory_used (nvidia_smi_data s)) c)
                 (evict_oldest (memory_total (nvidia_smi_data s)) d).
Proof.
  intros Hl Hb Hrun Hsample.
  destruct s as [tb w ex act thr lk ck tr].
  cbn [clock nvidia_smi_data] in *.
  unfold read_sample, fields in Hsample.
  destruct (Py.split "," (Py.strip stdout)) as [|v0 [|v1 [|v2 [|v3 more]]]] eqn:Hsplit;
    try discriminate Hsample.
  destruct (Py.parse_float (Py.strip v0)) as [a'|] eqn:H0; [|discriminate Hsample].
  destruct (Py.parse_float (Py.strip v1)) as [b'|] eqn:H1; [|discriminate Hsample].
  destruct (Py.parse_float (Py.strip v2)) as [c'|] eqn:H2; [|discriminate Hsample].
  destruct (Py.parse_float (Py.strip v3)) as [d'|] eqn:H3; [|discriminate Hsample].
  injection Hsample as -> -> -> ->.
  assert (Hout : nonempty (Py.strip stdout) = true).
  { destruct (Py.strip stdout); [discriminate Hsplit | reflexivity]. }
  unfold fetch_nvidia_smi. run_monad. rewrite Hrun. run_monad.
  cbn [Z.eqb negb]. rewrite Hout, Hsplit. cbn [nth_error].
  rewrite H0, H1, H2, H3. run_monad.
  destruct Hl as (L1 & L2 & L3 & L4). destruct w as [ts te po mu mt].
  cbn [timestamps temperature power memory_used memory_total] in *.
  unfold evict_oldest. rewrite L1, L2, L3, L4.
  unfold append_memory_total, append_memory_used, append_power, append_temperature,
    append_timestamps; cbn [timestamps temperature power memory_used memory_total].
  rewrite length_app; cbn [length].
  destruct (length ts <? 100)%nat eqn:Hfull.
  - apply Nat.ltb_lt in Hfull.
    replace (100 <? length ts + 1)%nat with false
      by (symmetry; apply Nat.ltb_ge; lia).
    split; reflexivity.
  - apply Nat.ltb_ge in Hfull.
    replace (100 <? length ts + 1)%nat with true
      by (symmetry; apply Nat.ltb_lt; lia).
    split; [reflexivity|].
    unfold trim_memory_total, trim_memory_used, trim_power, trim_temperature,
      trim_timestamps; cbn [timestamps temperature power memory_used memory_total].
    rewrite !last_n_push by lia.
    rewrite L1, L2, L3, L4.
    replace (length ts <? 100)%nat with false by (symmetry; apply Nat.ltb_ge; lia).
    reflexivity.
Qed.

(** X1.  In every reachable state, when the sensor command exits with
    status 0 and the first four fields of its output are accepted by
    [float], the sampler returns the raw output with return code 0 and
    appends exactly that sample, stamped with the clock reading taken
    inside the lock, evicting the oldest element of each sequence when the
    window was full.  Fields after the fourth play no part. *)
Theorem sample_is_appended (rt : runtime) (calls : list call)
  (stdout stderr : string) (a b c d : Py.float) :
  let s := run rt calls initial_state in
  let w := nvidia_smi_data s in
  subprocess_run rt (clock s) (ssh_argv rt nvidia_smi_command)
  = Return (Completed stdout stderr 0) ->
  read_sample stdout = Some (a, b, c, d) ->
  fst (fetch_nvidia_smi rt s) = Return (GpuResult nvidia_smi_command stdout stderr 0)
  /\ nvidia_smi_data (snd (fetch_nvidia_smi rt s))
     = GpuWindow (evict_oldest (timestamps w) (datetime_now_isoformat rt (S (clock s))))
                 (evict_oldest (temperature w) a)
                 (evict_oldest (power w) b)
                 (evict_oldest (memory_used w) c)
                 (evict_oldest (memory_total w) d).
Proof.
  intros s w Hrun Hsample.
  destruct (run_Inv rt calls initial_state initial_Inv) as [_ _ Hl Hb].
  exact (fetch_nvidia_smi_readable rt s stdout stderr a b c d Hl Hb Hrun Hsample).
Qed.

Lemma sample_is_appended_witness :
  fst (fetch_nvidia_smi extra_field_host (run extra_field_host [] initial_state))
  = Return (GpuResult nvidia_smi_command "45, 120.50, 2000, 8000, junk" "" 0)
  /\ length (timestamps (nvidia_smi_data
               (snd (fetch_nvidia_smi extra_field_host
                       (run extra_field_host [] initial_state))))) = 1.
Proof.
  destruct (sample_is_appended extra_field_host [] "45, 120.50, 2000, 8000, junk" ""
              (Py.Finite false 45 0) (Py.Finite false 12050 (-2))
              (Py.Finite false 2000 0) (Py.Finite false 8000 0)
              eq_refl eq_refl) as [Hret Hwin].
  split; [exact Hret|]. rewrite Hwin. reflexivity.
Defined.

(** X2.  When the sensor command exits with a non-zero status, the sampler
    returns the captured output and that status untouched, writes no
    global, takes no lock, and has spawned exactly one child process. *)
Theorem failed_sensor_command_is_reported (rt : runtime) (s : state)
  (stdout stderr : string) (returncode : Z) :
  subprocess_run rt (clock s) (ssh_argv rt nvidia_smi_command)
  = Return (Completed stdout stderr returncode) ->
  returncode <> 0%Z ->
  fetch_nvidia_smi rt s
  = (Return (GpuResult nvidia_smi_command stdout stderr returncode),
     State (tensorboard_data s) (nvidia_smi_data s) (tensorboard_experiments s)
           (monitoring_active s) (monitoring_threads s) (lock_held s)
           (S (clock s)) (trace s ++ [Spawn (ssh_argv rt nvidia_smi_command)])).
Proof.
  intros Hrun Hrc. destruct s as [tb w ex act thr lk ck tr].
  cbn [clock] in Hrun. unfold fetch_nvidia_smi. run_monad.
  rewrite Hrun. run_monad. apply Z.eqb_neq in Hrc. rewrite Hrc. reflexivity.
Qed.

Lemma failed_sensor_command_is_reported_witness :
  fst (fetch_nvidia_smi sensor_absent_host initial_state)
  = Return (GpuResult nvidia_smi_command ""
              "bash: nvidia-smi: command not found" 127).
Proof.
  rewrite (failed_sensor_command_is_reported sensor_absent_host initial_state
             "" "bash: nvidia-smi: command not found" 127 eq_refl).
  - reflexivity.
  - discriminate.
Defined.

(** ** What [float] accepts *)

Lemma isdigit_no_space c : Py.isdigit c = true -> Py.isspace c = false.
Proof. destruct c as [[] [] [] [] [] [] [] []]; intros H; try discriminate H; reflexivity. Qed.

Lemma eqb_no_space c k : Ascii.eqb c k = true -> Py.isspace k = false -> Py.isspace c = false.
Proof. intros H Hk. apply Ascii.eqb_eq in H. subst c. exact Hk. Qed.

Lemma digitpart_tail_consumes k : forall l acc n,
  length l <= k ->
  exists pre, l = pre ++ snd (Py.digitpart_tail acc n l) /\ no_space pre.
Proof.
  induction k as [|k IH]; intros l acc n Hlen.
  - destruct l; [|simpl in Hlen; lia]. exists []. split; [reflexivity|constructor].
  - destruct l as [|c l']; [exists []; split; [reflexivity|constructor]|].
    simpl in Hlen. cbn [Py.digitpart_tail].
    destruct (Py.isdigit c) eqn:Hc.
    + destruct (IH l' (acc * 10 + Py.digit_value c)%N (S n)) as (pre & Hpre & Hclean);
        [lia|].
      exists (c :: pre). split; [simpl; congruence|].
      constructor; [now apply isdigit_no_space | exact Hclean].
    + destruct (Ascii.eqb c "_") eqn:Hu;
        [|exists []; split; [reflexivity|constructor]].
      destruct l' as [|d l'']; [exists []; split; [reflexivity|constructor]|].
      destruct (Py.isdigit d) eqn:Hd;
        [|exists []; split; [reflexivity|constructor]].
      simpl in Hlen.
      destruct (IH l'' (acc * 10 + Py.digit_value d)%N (S n)) as (pre & Hpre & Hclean);
        [lia|].
      exists (c :: d :: pre). split; [simpl; congruence|].
      constructor; [now apply (eqb_no_space c "_")|].
      constructor; [now apply isdigit_no_space | exact Hclean].
Qed.

Lemma digitpart_consumes l acc :
  exists pre, l = pre ++ snd (Py.digitpart acc l) /\ no_space pre.
Proof.
  destruct l as [|c l']; [exists []; split; [reflexivity|constructor]|].
  cbn [Py.digitpart]. destruct (Py.isdigit c) eqn:Hc;
    [|exists []; split; [reflexivity|constructor]].
  destruct (digitpart_tail_consumes (length l') l' (acc * 10 + Py.digit_value c)%N 1)
    as (pre & Hpre & Hclean); [lia|].
  exists (c :: pre). split; [simpl; congruence|].
  constructor; [now apply isdigit_no_space | exact Hclean].
Qed.

Lemma sign_consumes l :
  exists pre, l = pre ++ snd (Py.sign l) /\ no_space pre.
Proof.
  destruct l as [|c l']; [exists []; split; [reflexivity|constructor]|].
  cbn [Py.sign]. destruct (Ascii.eqb c "-") eqn:Hm.
  - exists [c]. split; [reflexivity|]. constructor; [|constructor].
    now apply (eqb_no_space c "-").
  - destruct (Ascii.eqb c "+") eqn:Hp.
    + exists [c]. split; [reflexivity|]. constructor; [|constructor].
      now apply (eqb_no_space c "+").
    + exists []. split; [reflexivity|constructor].
Qed.

Lemma exponent_no_space l e : Py.exponent l = Some e -> no_space l.
Proof.
  destruct l as [|c l']; [constructor|].
  cbn [Py.exponent]. destruct (Ascii.eqb c "e" || Ascii.eqb c "E") eqn:He;
    [|discriminate].
  destruct (sign_consumes l') as (pre1 & Hpre1 & Hclean1).
  destruct (Py.sign l') as [neg l1]. cbn [snd] in Hpre1.
  destruct (digitpart_consumes l1 0) as (pre2 & Hpre2 & Hclean2).
  destruct (Py.digitpart 0 l1) as [[m n] r]. cbn [snd] in Hpre2.
  destruct n; [discriminate|]. destruct r; [|discriminate].
  intros _. constructor.
  - apply orb_true_iff in He. destruct He as [He|He];
      [now apply (eqb_no_space c "e") | now apply (eqb_no_space c "E")].
  - rewrite Hpre1, Hpre2, app_nil_r. apply Forall_app. split; assumption.
Qed.

Lemma floatnumber_no_space neg l x : Py.floatnumber neg l = Some x -> no_space l.
Proof.
  unfold Py.floatnumber.
  destruct (digitpart_consumes l 0) as (pre1 & Hpre1 & Hclean1).
  destruct (Py.digitpart 0 l) as [[iv id] l1]. cbn [snd] in Hpre1.
  assert (Hrest : forall m fd l2,
             match l1 with
             | c :: l1' => if Ascii.eqb c "." then Py.digitpart iv l1' else (iv, O, l1)
             | [] => (iv, O, [])
             end = (m, fd, l2) ->
             exists pre, l1 = pre ++ l2 /\ no_space pre).
  { intros m fd l2. destruct l1 as [|c l1'].
    - intros [= _ _ <-]. exists []. split; [reflexivity|constructor].
    - destruct (Ascii.eqb c ".") eqn:Hdot.
      + intros Hd. destruct (digitpart_consumes l1' iv) as (pre & Hpre & Hclean).
        rewrite Hd in Hpre. cbn [snd] in Hpre.
        exists (c :: pre). split; [simpl; congruence|].
        constructor; [now apply (eqb_no_space c ".") | exact Hclean].
      + intros [= _ _ <-]. exists []. split; [reflexivity|constructor]. }
  destruct (match l1 with
            | c :: l1' => if Ascii.eqb c "." then Py.digitpart iv l1' else (iv, O, l1)
            | [] => (iv, O, [])
            end) as [[m fd] l2].
  destruct (Hrest m fd l2 eq_refl) as (pre2 & Hpre2 & Hclean2).
  destruct (id + fd)%nat; [discriminate|].
  destruct (Py.exponent l2) as [e|] eqn:He; [|discriminate].
  intros _. rewrite Hpre1, Hpre2.
  repeat (apply Forall_app; split); auto. eapply exponent_no_space, He.
Qed.

Lemma lower_space c : Py.isspace c = true -> Py.lower c = c.
Proof. destruct c as [[] [] [] [] [] [] [] []]; intros H; try discriminate H; reflexivity. Qed.

Lemma word_no_space (l : list ascii) (word : string) :
  forallb (fun c => negb (Py.isspace c)) (list_ascii_of_string word) = true ->
  string_of_list_ascii (map Py.lower l) = word -> no_space l.
Proof.
  intros Hword Heq.
  assert (Hl : map Py.lower l = list_ascii_of_string word).
  { rewrite <- Heq, list_ascii_of_string_of_list_ascii. reflexivity. }
  rewrite <- Hl in Hword. clear Hl Heq.
  induction l as [|c l IH]; [constructor|].
  simpl in Hword. apply andb_true_iff in Hword. destruct Hword as [Hc Hrest].
  constructor; [|apply IH, Hrest].
  destruct (Py.isspace c) eqn:Hs; [|reflexivity].
  rewrite (lower_space c Hs), Hs in Hc. discriminate Hc.
Qed.

(** What [float] accepts has no white space left once both ends are
    stripped. *)
Lemma parse_float_no_space s x :
  Py.parse_float s = Some x ->
  no_space (Py.rstrip_chars Py.isspace
              (Py.lstrip_chars Py.isspace (list_ascii_of_string s))).
Proof.
  unfold Py.parse_float.
  set (body := Py.rstrip_chars Py.isspace _).
  destruct (sign_consumes body) as (pre & Hpre & Hclean).
  destruct (Py.sign body) as [neg l]. cbn [snd] in Hpre.
  intros H. rewrite Hpre. apply Forall_app. split; [exact Hclean|].
  destruct (String.eqb _ "inf" || String.eqb _ "infinity") eqn:Hinf.
  - apply orb_true_iff in Hinf. destruct Hinf as [Hw|Hw]; apply String.eqb_eq in Hw;
      eapply word_no_space; try exact Hw; reflexivity.
  - destruct (String.eqb _ "nan") eqn:Hnan.
    + apply String.eqb_eq in Hnan. eapply word_no_space; try exact Hnan; reflexivity.
    + eapply floatnumber_no_space, H.
Qed.

Lemma lstrip_chars_snoc drop l c :
  drop c = false ->
  Py.lstrip_chars drop (l ++ [c]) = Py.lstrip_chars drop l ++ [c].
Proof.
  intros Hc. induction l as [|d l IH]; simpl; [rewrite Hc; reflexivity|].
  destruct (drop d); [exact IH | reflexivity].
Qed.

Lemma strip_chars_idem drop l :
  Py.rstrip_chars drop (Py.lstrip_chars drop
    (Py.rstrip_chars drop (Py.lstrip_chars drop l)))
  = Py.rstrip_chars drop (Py.lstrip_chars drop l).
Proof.
  pose proof (lstrip_chars_head drop l) as Hhead.
  set (m := Py.lstrip_chars drop l) in *.
  assert (Hkeep : Py.lstrip_chars drop (Py.rstrip_chars drop m)
                  = Py.rstrip_chars drop m).
  { unfold Py.rstrip_chars. destruct m as [|c m']; [reflexivity|].
    change (rev (c :: m')) with (rev m' ++ [c]).
    rewrite (lstrip_chars_snoc drop (rev m') c Hhead).
    rewrite rev_app_distr. cbn [rev app Py.lstrip_chars].
    rewrite Hhead. reflexivity. }
  rewrite Hkeep. unfold Py.rstrip_chars.
  rewrite rev_involutive, lstrip_chars_idem. reflexivity.
Qed.

Lemma parse_float_inner_space v c :
  In c (list_ascii_of_string (Py.strip v)) -> Py.isspace c = true ->
  Py.parse_float (Py.strip v) = None.
Proof.
  intros Hin Hc. destruct (Py.parse_float (Py.strip v)) as [x|] eqn:Hparse;
    [|reflexivity].
  apply parse_float_no_space in Hparse. exfalso.
  unfold Py.strip in Hparse, Hin.
  rewrite list_ascii_of_string_of_list_ascii in Hparse, Hin.
  rewrite strip_chars_idem in Hparse.
  unfold no_space in Hparse. rewrite List.Forall_forall in Hparse.
  rewrite (Hparse c Hin) in Hc. discriminate Hc.
Qed.

(** The sampler when no sample can be read off the output. *)
Lemma fetch_nvidia_smi_unreadable rt s stdout stderr :
  subprocess_run rt (clock s) (ssh_argv rt nvidia_smi_command)
  = Return (Completed stdout stderr 0) ->
  read_sample stdout = None ->
  same_globals s (snd (fetch_nvidia_smi rt s))
  /\ exists g, fst (fetch_nvidia_smi rt s) = Return g.
Proof.
  intros Hrun Hnone.
  destruct s as [tb w ex act thr lk ck tr]. cbn [clock] in Hrun.
  unfold fetch_nvidia_smi, same_globals, read_sample, fields in *. run_monad.
  rewrite Hrun. run_monad. cbn [Z.eqb negb].
  destruct (nonempty (Py.strip stdout)); run_monad;
    [|repeat split; eexists; reflexivity].
  destruct (Py.split "," (Py.strip stdout)) as [|v0 [|v1 [|v2 [|v3 more]]]];
    cbn [nth_error]; run_monad;
    repeat (match goal with
            | |- context [Py.parse_float ?x] =>
                destruct (Py.parse_float x); run_monad
            end);
    try discriminate Hnone;
    repeat split; eexists; reflexivity.
Qed.

(** X3.  When the sensor command exits with status 0 and one of the first
    four fields of its output still holds a white-space character after
    stripping, nothing is sampled and no global is written.  This is what
    happens to the output of a host with several GPUs: its fourth field
    runs from the last number of the first line, over the line break, to
    the first number of the second line. *)
Theorem field_with_inner_space_is_dropped (rt : runtime) (s : state)
  (stdout stderr : string) (i : nat) (v : string) (c : ascii) :
  subprocess_run rt (clock s) (ssh_argv rt nvidia_smi_command)
  = Return (Completed stdout stderr 0) ->
  i < 4 ->
  nth_error (fields stdout) i = Some v ->
  In c (list_ascii_of_string (Py.strip v)) ->
  Py.isspace c = true ->
  same_globals s (snd (fetch_nvidia_smi rt s))
  /\ exists g, fst (fetch_nvidia_smi rt s) = Return g.
Proof.
  intros Hrun Hi Hv Hin Hc.
  apply (fetch_nvidia_smi_unreadable rt s stdout stderr Hrun).
  pose proof (parse_float_inner_space v c Hin Hc) as Hbad.
  unfold read_sample.
  destruct (fields stdout) as [|v0 [|v1 [|v2 [|v3 more]]]]; try reflexivity.
  destruct i as [|[|[|[|i]]]]; try lia; cbn [nth_error] in Hv;
    injection Hv as ->; rewrite Hbad;
    repeat (match goal with
            | |- context [Py.parse_float ?x] => destruct (Py.parse_float x)
            end); reflexivity.
Qed.

Lemma field_with_inner_space_is_dropped_witness :
  same_globals initial_state (snd (fetch_nvidia_smi two_gpu_host initial_state))
  /\ exists g, fst (fetch_nvidia_smi two_gpu_host initial_state) = Return g.
Proof.
  apply (field_with_inner_space_is_dropped two_gpu_host initial_state
           ("45, 120.50, 2000, 8000" +:+ nl +:+ "47, 131.00, 4000, 8000" +:+ nl) ""
           3 (" 8000" +:+ nl +:+ "47") lf).
  - reflexivity.
  - lia.
  - reflexivity.
  - vm_compute. tauto.
  - reflexivity.
Defined.

(** ** The scalar fetcher *)

(** The fetch, told by its result: the store is written exactly when the
    result carries data. *)
Lemma fetch_tensorboard_data_store rt p s :
  exists t,
    fst (fetch_tensorboard_data rt p s) = Return t
    /\ nvidia_smi_data (snd (fetch_tensorboard_data rt p s)) = nvidia_smi_data s
    /\ tensorboard_experiments (snd (fetch_tensorboard_data rt p s))
       = tensorboard_experiments s
    /\ monitoring_active (snd (fetch_tensorboard_data rt p s)) = monitoring_active s
    /\ monitoring_threads (snd (fetch_tensorboard_data rt p s)) = monitoring_threads s
    /\ match t_data t with
       | None =>
           tensorboard_data (snd (fetch_tensorboard_data rt p s)) = tensorboard_data s
       | Some data =>
           tensorboard_data (snd (fetch_tensorboard_data rt p s))
           = <[Py.lstrip "/" p := data]> (tensorboard_data s)
           /\ passed_error_test rt data
           /\ t_returncode t = 0%Z
           /\ t_error t = None
       end.
Proof.
  destruct s as [tb w ex act thr lk ck tr].
  unfold fetch_tensorboard_data, passed_error_test. run_monad.
  repeat branch; eexists; (split; [reflexivity|]); repeat (split; [reflexivity|]);
    cbn [t_data t_returncode t_error]; try reflexivity.
  all: split;
    [|split; [|reflexivity];
      match goal with
      | H : negb (?rc =? 0)%Z || _ = false |- _ =>
          apply orb_false_iff in H; destruct H as [H _];
          apply negb_false_iff, Z.eqb_eq in H; exact H
      end].
  all: intros s0; run_monad; cbn [fst]; congruence.
Qed.

(** X4.  A scalar fetch never raises, and its result tells what happened
    to the store.  When the result carries no data, no global was written.
    When it carries data, the entry under the normalised path is that data
    (whatever was stored before is gone, nothing is merged), every other
    entry and every other global is as before, the return code is 0, the
    result has no ['error'] member and the data passed the test
    ['error' in data] with the answer no. *)
Theorem fetch_result_tells_the_store (rt : runtime) (p : string) (s : state) :
  exists t,
    fst (fetch_tensorboard_data rt p s) = Return t
    /\ match t_data t with
       | None => same_globals s (snd (fetch_tensorboard_data rt p s))
       | Some data =>
           tensorboard_data (snd (fetch_tensorboard_data rt p s)) !! Py.lstrip "/" p
           = Some data
           /\ (forall k, k <> Py.lstrip "/" p ->
                 tensorboard_data (snd (fetch_tensorboard_data rt p s)) !! k
                 = tensorboard_data s !! k)
           /\ nvidia_smi_data (snd (fetch_tensorboard_data rt p s)) = nvidia_smi_data s
           /\ tensorboard_experiments (snd (fetch_tensorboard_data rt p s))
              = tensorboard_experiments s
           /\ monitoring_active (snd (fetch_tensorboard_data rt p s))
              = monitoring_active s
           /\ monitoring_threads (snd (fetch_tensorboard_data rt p s))
              = monitoring_threads s
           /\ t_returncode t = 0%Z
           /\ t_error t = None
           /\ passed_error_test rt data
       end.
Proof.
  destruct (fetch_tensorboard_data_store rt p s)
    as (t & Ht & Hw & Hex & Hact & Hthr & Hstore).
  exists t. split; [exact Ht|].
  destruct (t_data t) as [data|].
  - destruct Hstore as (Hins & Hpass & Hrc & Herr). rewrite Hins.
    split; [apply lookup_insert_eq|].
    split; [intros k Hk; apply lookup_insert_ne; congruence|].
    repeat split; assumption.
  - repeat split; assumption.
Qed.

(** X5.  When the helper exits with status 0 and prints something that
    [json.loads] refuses, the fetch reports return code 1 with the decoder's
    message as stderr; the captured stdout and stderr of the helper are not
    in the result, and no global is written. *)
Theorem undecodable_output_is_reported (rt : runtime) (p : string) (s : state)
  (stdout stderr : string) (e : exn) :
  subprocess_run rt (clock s) (ssh_argv rt (tensorboard_command rt p))
  = Return (Completed stdout stderr 0) ->
  stdout <> "" ->
  json_loads rt stdout = Raise e ->
  fst (fetch_tensorboard_data rt p s)
  = Return (TbResult None (tensorboard_command rt p) "" (exc_text e) 1 None)
  /\ same_globals s (snd (fetch_tensorboard_data rt p s)).
Proof.
  intros Hrun Hout Hjson.
  destruct s as [tb w ex act thr lk ck tr]. cbn [clock] in Hrun.
  unfold fetch_tensorboard_data, same_globals. run_monad.
  rewrite Hrun. run_monad.
  destruct stdout as [|c stdout]; [congruence|]. cbn [nonempty negb orb Z.eqb].
  rewrite Hjson. run_monad. repeat split.
Qed.

Lemma undecodable_output_is_reported_witness :
  fst (fetch_tensorboard_data traceback_host "runs/a" initial_state)
  = Return (TbResult None (tensorboard_command traceback_host "runs/a") ""
              "Expecting value: line 1 column 1 (char 0)" 1 None)
  /\ same_globals initial_state
       (snd (fetch_tensorboard_data traceback_host "runs/a" initial_state)).
Proof.
  apply (undecodable_output_is_reported traceback_host "runs/a" initial_state
           "Traceback (most recent call last):" ""
           (Exception "JSONDecodeError" "Expecting value: line 1 column 1 (char 0)")).
  - reflexivity.
  - discriminate.
  - reflexivity.
Defined.

(** X6.  When the helper exits with status 0 and its output decodes to a
    JSON number, boolean or null, the test ['error' in data] raises; the
    fetch reports return code 1 with that error's text and writes no
    global. *)
Theorem scalar_document_is_reported (rt : runtime) (p : string) (s : state)
  (stdout stderr : string) (data : json) :
  subprocess_run rt (clock s) (ssh_argv rt (tensorboard_command rt p))
  = Return (Completed stdout stderr 0) ->
  stdout <> "" ->
  json_loads rt stdout = Return data ->
  match data with
  | JNull | JBool _ | JInt _ | JFloat _ => True
  | JStr _ | JArr _ | JObj _ => False
  end ->
  fst (fetch_tensorboard_data rt p s)
  = Return (TbResult None (tensorboard_command rt p) ""
              (type_error_text rt "in" data) 1 None)
  /\ same_globals s (snd (fetch_tensorboard_data rt p s)).
Proof.
  intros Hrun Hout Hjson Hscalar.
  destruct s as [tb w ex act thr lk ck tr]. cbn [clock] in Hrun.
  unfold fetch_tensorboard_data, same_globals. run_monad.
  rewrite Hrun. run_monad.
  destruct stdout as [|c stdout]; [congruence|]. cbn [nonempty negb orb Z.eqb].
  rewrite Hjson. run_monad.
  destruct data; try contradiction; repeat split.
Qed.

Lemma scalar_document_is_reported_witness :
  fst (fetch_tensorboard_data (helper_host (Completed "42" "" 0) (JInt 42))
         "runs/a" initial_state)
  = Return (TbResult None
              (tensorboard_command (helper_host (Completed "42" "" 0) (JInt 42)) "runs/a")
              "" "unsupported operand for in" 1 None)
  /\ same_globals initial_state
       (snd (fetch_tensorboard_data (helper_host (Completed "42" "" 0) (JInt 42))
               "runs/a" initial_state)).
Proof.
  apply (scalar_document_is_reported (helper_host (Completed "42" "" 0) (JInt 42))
           "runs/a" initial_state "42" "" (JInt 42)).
  - reflexivity.
  - discriminate.
  - reflexivity.
  - exact I.
Defined.

(** ** The experiment-metrics mapping in an execution *)

Ltac call_store :=
  match goal with
  | |- context [fetch_nvidia_smi ?rt ?S] =>
      let H := fresh "Hpost" in
      pose proof (fetch_nvidia_smi_post rt S) as H;
      destruct (fetch_nvidia_smi rt S) as [? [? ? ? ? ? ? ? ?]];
      cbn [fst snd tensorboard_data nvidia_smi_data tensorboard_experiments
           monitoring_active monitoring_threads] in H;
      destruct H as ([? ->] & -> & -> & -> & -> & _)
  | |- context [fetch_tensorboard_data ?rt ?p ?S] =>
      let H := fresh "Hstore" in
      pose proof (fetch_tensorboard_data_store rt p S) as H;
      destruct (fetch_tensorboard_data rt p S) as [? [? ? ? ? ? ? ? ?]];
      cbn [fst snd tensorboard_data nvidia_smi_data tensorboard_experiments
           monitoring_active monitoring_threads] in H;
      destruct H as (? & -> & -> & -> & -> & -> & H)
  end; run_monad.

Ltac store_step :=
  cbn [snd tensorboard_data];
  first
    [ left; reflexivity
    | match goal with
      | H : match t_data ?t with _ => _ end |- _ =>
          destruct (t_data t);
          [ destruct H as (-> & ? & _); right; eauto
          | left; exact H ]
      end ].

Lemma exec_store rt c s :
  tensorboard_data (exec rt c s) = tensorboard_data s
  \/ exists p data,
      passed_error_test rt data
      /\ tensorboard_data (exec rt c s)
         = <[Py.lstrip "/" p := data]> (tensorboard_data s).
Proof.
  destruct c; cbn [exec].
  - left. apply fetch_nvidia_smi_post.
  - destruct (fetch_tensorboard_data_store rt experiment_path s)
      as (t & _ & _ & _ & _ & _ & H).
    destruct (t_data t); [destruct H as (-> & ? & _); right; eauto | left; exact H].
  - destruct s. unfold list_tensorboard_experiments. run_monad.
    repeat branch; left; reflexivity.
  - destruct s. unfold nvidia_smi_monitor_turn. run_monad.
    destruct monitoring_active0; [|left; reflexivity].
    call_store. left; reflexivity.
  - destruct s. unfold tensorboard_monitor_turn. run_monad.
    destruct monitoring_active0; [|left; reflexivity].
    call_store. store_step.
  - destruct s. left. reflexivity.
  - destruct s. unfold get_nvidia_smi_data. run_monad. call_store. left; reflexivity.
  - destruct s. unfold start_monitoring, start_error. run_monad.
    destruct monitoring_active0; [left; reflexivity|].
    repeat (branch || call_store); store_step.
  - destruct s. left. reflexivity.
  - destruct s. unfold sync_output. run_monad. repeat branch; left; reflexivity.
  - destruct s. unfold get_output. run_monad. repeat branch; left; reflexivity.
Qed.

Lemma run_store rt calls s :
  (forall k v, tensorboard_data s !! k = Some v ->
               Py.lstrip "/" k = k /\ passed_error_test rt v) ->
  forall k v, tensorboard_data (run rt calls s) !! k = Some v ->
              Py.lstrip "/" k = k /\ passed_error_test rt v.
Proof.
  revert s. induction calls as [|c calls IH]; intros s Hs; [exact Hs|].
  simpl. apply IH. intros k v.
  destruct (exec_store rt c s) as [-> | (p & data & Hpass & ->)]; [apply Hs|].
  destruct (decide (k = Py.lstrip "/" p)) as [-> | Hne].
  - rewrite lookup_insert_eq. intros [= <-]. split; [apply lstrip_idem | exact Hpass].
  - rewrite lookup_insert_ne by congruence. apply Hs.
Qed.

Lemma get_tensorboard_data_value p s :
  fst (get_tensorboard_data p s)
  = Return (default (JObj []) (tensorboard_data s !! Py.lstrip "/" p)).
Proof. destruct s. reflexivity. Qed.

(** X7.  In every execution, each key of the experiment-metrics mapping
    has no leading slash (it is its own normal form), each stored value
    answered no to the test ['error' in data], and
    [GET /api/tensorboard/<path>] does not raise and serves either the empty
    object or such a value: an error payload of the helper is never served
    as metrics. *)
Theorem stored_metrics_are_clean (rt : runtime) (calls : list call) :
  let s := run rt calls initial_state in
  (forall k v, tensorboard_data s !! k = Some v ->
               Py.lstrip "/" k = k /\ passed_error_test rt v)
  /\ (forall p, exists v,
        fst (get_tensorboard_data p s) = Return v
        /\ (v = JObj [] \/ passed_error_test rt v))
  /\ (forall members, In (JObj members) (map snd (map_to_list (tensorboard_data s))) ->
        dict_get "error" members = None).
Proof.
  intros s.
  assert (Hclean : forall k v, tensorboard_data s !! k = Some v ->
                     Py.lstrip "/" k = k /\ passed_error_test rt v).
  { apply run_store. intros k v. cbn. rewrite lookup_empty. discriminate. }
  split; [exact Hclean|]. split.
  - intros p. rewrite get_tensorboard_data_value.
    destruct (tensorboard_data s !! Py.lstrip "/" p) as [v|] eqn:Hv; cbn [default].
    + exists v. split; [reflexivity|]. right. exact (proj2 (Hclean _ _ Hv)).
    + exists (JObj []). split; [reflexivity|]. left. reflexivity.
  - intros members Hin. apply in_map_iff in Hin. destruct Hin as ([k v] & Hv & Hin).
    cbn in Hv. subst v. apply list_elem_of_In, elem_of_map_to_list in Hin.
    destruct (Hclean _ _ Hin) as [_ Hpass].
    specialize (Hpass initial_state). cbn in Hpass.
    destruct (dict_get "error" members); [|reflexivity].
    rewrite bool_decide_eq_true_2 in Hpass by eauto. discriminate Hpass.
Qed.

Lemma stored_metrics_are_clean_witness :
  Py.lstrip "/" "runs/a" = "runs/a"
  /\ passed_error_test helper_succeeds (JObj [("loss", JArr [])]).
Proof.
  apply (proj1 (stored_metrics_are_clean helper_succeeds
                  [CallFetchTensorboardData "/runs/a"]) "runs/a").
  vm_compute. reflexivity.
Defined.

(** ** The read-only handlers and the listings *)

Lemma fetch_nvidia_smi_events rt s :
  exists evs,
    trace (snd (fetch_nvidia_smi rt s)) = trace s ++ evs
    /\ started evs = []
    /\ spawned evs = [ssh_argv rt nvidia_smi_command].
Proof.
  destruct s as [tb w ex act thr lk ck tr].
  unfold fetch_nvidia_smi. run_monad.
  repeat branch; eexists; (split; [rewrite <- ?app_assoc; reflexivity|]);
    split; reflexivity.
Qed.

Lemma fetch_tensorboard_data_events rt p s :
  exists evs,
    trace (snd (fetch_tensorboard_data rt p s)) = trace s ++ evs
    /\ started evs = []
    /\ spawned evs = [ssh_argv rt (tensorboard_command rt p)].
Proof.
  destruct s as [tb w ex act thr lk ck tr].
  unfold fetch_tensorboard_data. run_monad.
  repeat branch; eexists; (split; [rewrite <- ?app_assoc; reflexivity|]);
    split; reflexivity.
Qed.

(** The threads that a successful start launches. *)
Lemma started_app l1 l2 : started (l1 ++ l2) = started l1 ++ started l2.
Proof. apply omap_app. Qed.

Lemma spawned_app l1 l2 : spawned (l1 ++ l2) = spawned l1 ++ spawned l2.
Proof. apply omap_app. Qed.

(** X8.  [GET /api/nvidia-smi] does not raise and its body has no
    ['error'] member.  Each request takes one sample: exactly one child
    process is spawned, and the body reports the command, raw output,
    stderr and return code of that sample.  After the sample the handler
    takes the lock once, makes its shallow copy of the dict while it holds
    the lock, and releases it; apart from the sample it writes no global.
    What the body shows of the five lists is not stated: they are shared
    with the collector threads and serialised after the lock is
    released. *)
Theorem nvidia_smi_endpoint_samples_once (rt : runtime) (s : state) :
  let s1 := snd (fetch_nvidia_smi rt s) in
  let s2 := snd (get_nvidia_smi_data rt s) in
  exists g,
    fst (fetch_nvidia_smi rt s) = Return g
    /\ fst (get_nvidia_smi_data rt s)
       = Return (NvidiaResponse (CopiedAt (S (length (trace s1)))) None
                   (g_command g) (g_stdout g) (g_stderr g) (g_returncode g))
    /\ trace s2 = trace s1 ++ [Acquire; Release]
    /\ same_globals s1 s2
    /\ spawned (new_events s s2) = [ssh_argv rt nvidia_smi_command].
Proof.
  cbv zeta.
  destruct (fetch_nvidia_smi_post rt s) as ([g Hg] & _).
  destruct (fetch_nvidia_smi_events rt s) as (evs & Hevs & _ & Hspawn).
  exists g. split; [exact Hg|].
  assert (Hget : get_nvidia_smi_data rt s
                 = (Return (NvidiaResponse
                              (CopiedAt (S (length (trace (snd (fetch_nvidia_smi rt s))))))
                              None (g_command g) (g_stdout g) (g_stderr g)
                              (g_returncode g)),
                    emit Release (set_lock false
                      (emit Acquire (set_lock true (snd (fetch_nvidia_smi rt s))))))).
  { unfold get_nvidia_smi_data, try_except, bind, with_lock, shallow_copy, ret.
    destruct (fetch_nvidia_smi rt s) as [r s1]. cbn [fst snd] in *. subst r.
    destruct s1. cbn [emit set_lock trace]. rewrite length_app. cbn [length].
    rewrite Nat.add_1_r. reflexivity. }
  rewrite Hget. cbn [fst snd]. split; [reflexivity|].
  unfold new_events, same_globals.
  destruct (snd (fetch_nvidia_smi rt s)) as [tb w ex act thr lk ck tr].
  cbn [emit set_lock trace tensorboard_data nvidia_smi_data tensorboard_experiments
       monitoring_active monitoring_threads] in *.
  split; [rewrite <- app_assoc; reflexivity|]. split; [repeat split|].
  subst tr. rewrite <- !app_assoc. rewrite drop_app_length.
  rewrite !spawned_app, Hspawn. reflexivity.
Qed.

Lemma split_no_sep sep s x :
  In x (Py.split sep s) -> ~ In sep (list_ascii_of_string x).
Proof.
  revert x. induction s as [|c s IH]; intros x Hin.
  - cbn in Hin. destruct Hin as [<- | []]. cbn. tauto.
  - cbn [Py.split] in Hin. destruct (Ascii.eqb c sep) eqn:Hc.
    + destruct Hin as [<- | Hin]; [cbn; tauto | exact (IH x Hin)].
    + apply Ascii.eqb_neq in Hc.
      destruct (Py.split sep s) as [|h t].
      * destruct Hin as [<- | []]. cbn. intros [H | []]. congruence.
      * destruct Hin as [<- | Hin].
        -- cbn. intros [H | H]; [congruence | exact (IH h (or_introl eq_refl) H)].
        -- exact (IH x (or_intror Hin)).
Qed.

Lemma listed_lines text :
  Forall (fun e => e <> "" /\ ~ In lf (list_ascii_of_string e))
    (filter (fun exp => nonempty exp = true) (Py.split lf text)).
Proof.
  apply List.Forall_forall. intros e He.
  apply list_elem_of_In, list_elem_of_filter in He. destruct He as [Hne He].
  split; [intros ->; discriminate Hne|].
  apply (split_no_sep lf text e). apply list_elem_of_In. exact He.
Qed.


(** X10.  [GET /api/experiments] does not raise and writes no global.  It
    does not look at the exit status: whenever the remote command was
    spawned, the lines of its stdout (stripped, empty lines dropped) are
    returned next to the status, whatever the status is, and the body has no
    ['error'] member; an empty stdout gives the empty list.  Only a failed
    spawn gives the ['error'] member, with return code 1. *)
Theorem experiments_endpoint_ignores_exit_status (rt : runtime) (s : state) :
  same_globals s (snd (get_experiments rt s))
  /\ fst (get_experiments rt s)
     = Return
         match subprocess_run rt (clock s) (ssh_argv rt (get_experiments_command rt)) with
         | Return cp =>
             ExperimentsResponse
               (if nonempty (cp_stdout cp)
                then filter (fun exp => nonempty exp = true)
                       (Py.split lf (Py.strip (cp_stdout cp)))
                else [])
               None (get_experiments_command rt) (cp_stdout cp) (cp_stderr cp)
               (cp_returncode cp)
         | Raise e =>
             ExperimentsResponse [] (Some (exc_text e)) (get_experiments_command rt) ""
               (exc_text e) 1
         end
  /\ Forall (fun e => e <> "" /\ ~ In lf (list_ascii_of_string e))
       match fst (get_experiments rt s) with
       | Return res => x_experiments res
       | Raise _ => []
       end.
Proof.
  destruct s as [tb w ex act thr lk ck tr].
  unfold get_experiments, same_globals. run_monad.
  destruct (subprocess_run rt ck _) as [[stdout stderr rc]|e]; run_monad.
  - split; [repeat split|]. split.
    + destruct (nonempty stdout); reflexivity.
    + cbn [x_experiments].
      destruct (nonempty stdout); [apply listed_lines | constructor].
  - split; [repeat split|]. split; [reflexivity|constructor].
Qed.


(** ** File transfers *)

(** X11.  [sync_tensorboard_script] does not raise and writes no global.
    It answers [True] exactly when both children were spawned and the push
    ended with status 0; the exit status of the remote [mkdir] plays no
    part, and after a failed spawn of [mkdir] no push is attempted. *)
Theorem script_sync_answers_push_status (rt : runtime) (s : state) :
  same_globals s (snd (sync_tensorboard_script rt s))
  /\ fst (sync_tensorboard_script rt s)
     = Return
         match subprocess_run rt (clock s) (ssh_argv rt ("mkdir -p " +:+ remote_dir)) with
         | Return _ =>
             match subprocess_run rt (S (clock s))
                     (rsync_argv rt (TENSORBOARD_SCRIPT_PATH rt) REMOTE_SCRIPT_PATH false)
             with
             | Return push => (cp_returncode push =? 0)%Z
             | Raise _ => false
             end
         | Raise _ => false
         end
  /\ spawned (new_events s (snd (sync_tensorboard_script rt s)))
     = match subprocess_run rt (clock s) (ssh_argv rt ("mkdir -p " +:+ remote_dir)) with
       | Return _ =>
           [ssh_argv rt ("mkdir -p " +:+ remote_dir);
            rsync_argv rt (TENSORBOARD_SCRIPT_PATH rt) REMOTE_SCRIPT_PATH false]
       | Raise _ => [ssh_argv rt ("mkdir -p " +:+ remote_dir)]
       end.
Proof.
  destruct s as [tb w ex act thr lk ck tr].
  unfold sync_tensorboard_script, same_globals, new_events. run_monad.
  destruct (subprocess_run rt ck _) as [[o1 e1 rc1]|e]; run_monad.
  - destruct (subprocess_run rt (S ck) _) as [[o2 e2 rc2]|e]; run_monad.
    + destruct (rc2 =? 0)%Z; cbn [negb]; (split; [repeat split|]);
        (split; [reflexivity|]); rewrite <- app_assoc, drop_app_length; reflexivity.
    + split; [repeat split|]. split; [reflexivity|].
      rewrite <- app_assoc, drop_app_length. reflexivity.
  - split; [repeat split|]. split; [reflexivity|].
    rewrite drop_app_length. reflexivity.
Qed.

(** X12.  [POST /api/sync-output] does not raise and writes no global.
    Its status is [success] exactly when the transfer was spawned and ended
    with status 0, and then the body has no message.  Every other answer has
    the status [error] and a message.  The body always carries an output
    text and a return code, and never the file's content. *)
Theorem sync_output_reports_transfer (rt : runtime) (s : state) :
  exists answer,
    fst (sync_output rt s) = Return answer
    /\ same_globals s (snd (sync_output rt s))
    /\ (r_status answer = "success"
        <-> exists cp,
              subprocess_run rt (clock s)
                (rsync_argv rt (MAIN_THREAD_OUTPUT rt) (LOCAL_OUTPUT_PATH rt) true)
              = Return cp
              /\ cp_returncode cp = 0%Z)
    /\ (r_status answer = "success" /\ r_message answer = None
        \/ r_status answer = "error" /\ exists m, r_message answer = Some m)
    /\ (exists text, r_output answer = Some text)
    /\ (exists code, r_returncode answer = Some code)
    /\ r_content answer = None.
Proof.
  destruct s as [tb w ex act thr lk ck tr].
  unfold sync_output, same_globals. run_monad.
  destruct (subprocess_run rt ck _) as [[o1 e1 rc1]|e]; run_monad.
  - destruct (rc1 =? 0)%Z eqn:Hrc; eexists; (split; [reflexivity|]);
      (split; [repeat split|]); cbn [r_status r_message r_output r_returncode r_content].
    + apply Z.eqb_eq in Hrc. split; [split; eauto|]. repeat split; eauto.
    + apply Z.eqb_neq in Hrc. split.
      * split; [discriminate|]. intros (cp & [= <-] & Hzero). cbn in Hzero. congruence.
      * repeat split; eauto.
  - eexists. split; [reflexivity|]. split; [repeat split|].
    cbn [r_status r_message r_output r_returncode r_content]. split.
    + split; [discriminate|]. intros (cp & Hbad & _). discriminate Hbad.
    + repeat split; eauto.
Qed.

(** X13.  [GET /api/output] does not raise, writes no global and spawns no
    child process.  When the output file exists, the answer is [success]
    with the text read from it; when the file exists but reading it raises
    (it was removed in between, or is not readable), the answer is [error]
    with the exception text as message. *)
Theorem output_is_read_when_present (rt : runtime) (s : state) :
  os_path_exists rt (clock s) (LOCAL_OUTPUT_PATH rt) = true ->
  same_globals s (snd (get_output rt s))
  /\ spawned (new_events s (snd (get_output rt s))) = []
  /\ fst (get_output rt s)
     = Return
         match read_text rt (S (clock s)) (LOCAL_OUTPUT_PATH rt) with
         | Return content => Response "success" None None (Some content) None
         | Raise e => Response "error" (Some (exc_text e)) None None None
         end.
Proof.
  intros Hexists. destruct s as [tb w ex act thr lk ck tr]. cbn [clock] in Hexists.
  unfold get_output, same_globals, new_events. run_monad. rewrite Hexists. run_monad.
  destruct (read_text rt (S ck) _); run_monad;
    (split; [repeat split|]); (split; [rewrite drop_all; reflexivity|reflexivity]).
Qed.

Lemma output_is_read_when_present_witness :
  fst (get_output synced_host initial_state)
  = Return (Response "success" None None (Some "epoch 1: loss 0.52") None).
Proof.
  apply (proj2 (proj2 (output_is_read_when_present synced_host initial_state eq_refl))).
Defined.

(** ** The monitoring controller *)

Ltac call_events :=
  match goal with
  | |- context [fetch_nvidia_smi ?rt ?S] =>
      let H := fresh "Hpost" in
      let E := fresh "Hev" in
      pose proof (fetch_nvidia_smi_post rt S) as H;
      pose proof (fetch_nvidia_smi_events rt S) as E;
      destruct (fetch_nvidia_smi rt S) as [? [? ? ? ? ? ? ? ?]];
      cbn [fst snd tensorboard_data nvidia_smi_data tensorboard_experiments
           monitoring_active monitoring_threads trace] in H, E;
      destruct H as ([? ->] & -> & -> & -> & -> & _);
      destruct E as (? & -> & ? & ?)
  | |- context [fetch_tensorboard_data ?rt ?p ?S] =>
      let H := fresh "Hpost" in
      let E := fresh "Hev" in
      pose proof (fetch_tensorboard_data_post rt p S) as H;
      pose proof (fetch_tensorboard_data_events rt p S) as E;
      destruct (fetch_tensorboard_data rt p S) as [? [? ? ? ? ? ? ? ?]];
      cbn [fst snd tensorboard_data nvidia_smi_data tensorboard_experiments
           monitoring_active monitoring_threads trace] in H, E;
      destruct H as ([? ->] & -> & -> & -> & -> & _);
      destruct E as (? & -> & ? & ?)
  end; run_monad.

Ltac events_ok :=
  unfold new_events; cbn [trace];
  rewrite <- ?app_assoc; rewrite drop_app_length;
  rewrite ?started_app, ?spawned_app;
  repeat match goal with
         | H : started _ = [] |- _ => rewrite H; clear H
         | H : spawned _ = _ |- _ => rewrite H; clear H
         end;
  reflexivity.

Lemma start_monitoring_outcome rt request s :
  (monitoring_active s = false
   /\ exists e,
       (request = Raise e \/ request = Return (NotADict e))
       /\ start_monitoring rt request s = (Raise e, s))
  \/ exists answer,
      fst (start_monitoring rt request s) = Return answer
      /\ ((r_status answer = "already_running"
           /\ monitoring_active s = true
           /\ snd (start_monitoring rt request s) = s)
          \/ (r_status answer = "error"
              /\ (exists m, r_message answer = Some m)
              /\ monitoring_active s = false
              /\ same_globals s (snd (start_monitoring rt request s))
              /\ started (new_events s (snd (start_monitoring rt request s))) = [])
          \/ (r_status answer = "started"
              /\ r_message answer = None
              /\ monitoring_active s = false
              /\ monitoring_active (snd (start_monitoring rt request s)) = true
              /\ monitoring_threads (snd (start_monitoring rt request s))
                 = session_threads (requested_path request)
              /\ started (new_events s (snd (start_monitoring rt request s)))
                 = session_threads (requested_path request)
              /\ tensorboard_experiments (snd (start_monitoring rt request s))
                 = tensorboard_experiments s)).
Proof.
  destruct s as [tb w ex act thr lk ck tr].
  unfold start_monitoring, start_error, session_threads, requested_path, same_globals.
  run_monad.
  destruct act.
  { right. eexists. split; [reflexivity|]. left. repeat split. }
  destruct request as [[e|p]|e]; run_monad.
  { left. split; [reflexivity|]. exists e. split; [right|]; reflexivity. }
  2:{ left. split; [reflexivity|]. exists e. split; [left|]; reflexivity. }
  right.
  repeat (branch || call_events); eexists; (split; [reflexivity|]);
    cbn [r_status r_message];
    first
      [ right; left; split; [reflexivity|]; split; [eexists; reflexivity|];
        split; [reflexivity|]; split; [repeat split|]; events_ok
      | right; right; repeat (split; [reflexivity|]);
        split; [events_ok | reflexivity] ].
Qed.

(** X14.  [POST /api/start-monitoring] has four outcomes.  It raises,
    with the state as it was, exactly when no session is active and the
    body cannot be read: [request.json] raises, or the decoded document is
    not a dict and [data.get] raises.  [already_running]: a session was
    active and the state is as it was, whatever the body.  [error], with a
    message: no session was active, none is active afterwards, no global is
    written and no thread is started.  [started]: no session was active, the
    flag is set, the GPU thread and, for a non-empty experiment path, the
    scalar thread are started, in that order and once each, and the list of
    handles holds exactly these threads; handles of an earlier session are
    dropped from the list. *)
Theorem start_raises_or_answers (rt : runtime) (request : result request_data)
  (s : state) :
  (monitoring_active s = false
   /\ exists e,
       (request = Raise e \/ request = Return (NotADict e))
       /\ start_monitoring rt request s = (Raise e, s))
  \/ exists answer,
      fst (start_monitoring rt request s) = Return answer
      /\ (monitoring_active s = true \/ exists p, request = Return (Dict p))
      /\ ((r_status answer = "already_running"
           /\ monitoring_active s = true
           /\ snd (start_monitoring rt request s) = s)
          \/ (r_status answer = "error"
              /\ (exists m, r_message answer = Some m)
              /\ monitoring_active s = false
              /\ same_globals s (snd (start_monitoring rt request s))
              /\ started (new_events s (snd (start_monitoring rt request s))) = [])
          \/ (r_status answer = "started"
              /\ monitoring_active s = false
              /\ monitoring_active (snd (start_monitoring rt request s)) = true
              /\ monitoring_threads (snd (start_monitoring rt request s))
                 = session_threads (requested_path request)
              /\ started (new_events s (snd (start_monitoring rt request s)))
                 = session_threads (requested_path request))).
Proof.
  destruct (start_monitoring_outcome rt request s)
    as [Hraise | (answer & Hanswer & Hcases)]; [left; exact Hraise|].
  right. exists answer. split; [exact Hanswer|]. split.
  { destruct (monitoring_active s) eqn:Hact; [left; reflexivity|]. right.
    destruct request as [[e|p]|e]; [exfalso| eauto |exfalso];
      revert Hanswer; destruct s; cbn [monitoring_active] in Hact; subst;
      unfold start_monitoring; run_monad; discriminate. }
  destruct Hcases as [H | [H | H]]; [left; exact H | right; left; exact H |].
  right; right. destruct H as (H1 & _ & H2 & H3 & H4 & H5 & _).
  repeat split; assumption.
Qed.

(** C10, as the program has it.  In start-monitoring, with no session
    active and a body that was read, the exit status of the remote [mkdir]
    is not looked at: when both children were spawned, whatever status
    [mkdir] ended with, the start is aborted with the error status exactly
    when the script push ended with a non-zero status, and then nothing is
    started; when the push ended with status 0 the call answers [started],
    the flag is set and the collector threads of the session are started
    and kept as handles.  A failed spawn is another matter: when the spawn
    of [mkdir] raises, or that of the push, the [except] branch aborts the
    start with the error status and the exception text, and no session
    becomes active. *)
Theorem mkdir_status_is_ignored
  (rt : runtime) (p : option string) (s : state) :
  monitoring_active s = false ->
  let s' := snd (start_monitoring rt (Return (Dict p)) s) in
  (forall stdout stderr returncode push,
      subprocess_run rt (clock s) (ssh_argv rt ("mkdir -p " +:+ remote_dir))
      = Return (Completed stdout stderr returncode) ->
      subprocess_run rt (S (clock s))
        (rsync_argv rt (TENSORBOARD_SCRIPT_PATH rt) REMOTE_SCRIPT_PATH false)
      = Return push ->
      exists answer,
        fst (start_monitoring rt (Return (Dict p)) s) = Return answer
        /\ (cp_returncode push = 0%Z ->
            r_status answer = "started"
            /\ monitoring_active s' = true
            /\ monitoring_threads s' = session_threads p
            /\ started (new_events s s') = session_threads p)
        /\ (cp_returncode push <> 0%Z ->
            r_status answer = "error"
            /\ r_message answer = Some "Failed to sync tensorboard script"
            /\ monitoring_active s' = false
            /\ started (new_events s s') = []))
  /\ (forall e,
        subprocess_run rt (clock s) (ssh_argv rt ("mkdir -p " +:+ remote_dir))
        = Raise e ->
        fst (start_monitoring rt (Return (Dict p)) s)
        = Return (Response "error" (Some (exc_text e))
                    (Some (nl +:+ "Error: " +:+ exc_text e)) None None)
        /\ monitoring_active s' = false
        /\ started (new_events s s') = [])
  /\ (forall stdout stderr returncode e,
        subprocess_run rt (clock s) (ssh_argv rt ("mkdir -p " +:+ remote_dir))
        = Return (Completed stdout stderr returncode) ->
        subprocess_run rt (S (clock s))
          (rsync_argv rt (TENSORBOARD_SCRIPT_PATH rt) REMOTE_SCRIPT_PATH false)
        = Raise e ->
        exists answer,
          fst (start_monitoring rt (Return (Dict p)) s) = Return answer
          /\ r_status answer = "error"
          /\ r_message answer = Some (exc_text e)
          /\ monitoring_active s' = false
          /\ started (new_events s s') = []).
Proof.
  intros Hidle. destruct s as [tb w ex act thr lk ck tr].
  cbn [clock monitoring_active] in *. subst act. cbv zeta.
  unfold start_monitoring, start_error, session_threads. run_monad.
  split; [|split].
  - intros stdout stderr returncode [pout perr prc] Hmkdir Hpush.
    rewrite Hmkdir. run_monad. rewrite Hpush. run_monad.
    cbn [cp_returncode].
    destruct (prc =? 0)%Z eqn:Hrc; cbn [negb].
    + apply Z.eqb_eq in Hrc. subst prc.
      repeat (branch || call_events); eexists; (split; [reflexivity|]);
        (split; [intros _|intros Hbad; congruence]);
        repeat (split; [reflexivity|]); events_ok.
    + apply Z.eqb_neq in Hrc.
      eexists. split; [reflexivity|]. split; [intros Hbad; congruence|].
      intros _. repeat (split; [reflexivity|]). events_ok.
  - intros e Hmkdir. rewrite Hmkdir. run_monad.
    repeat (split; [reflexivity|]). events_ok.
  - intros stdout stderr returncode e Hmkdir Hpush.
    rewrite Hmkdir. run_monad. rewrite Hpush. run_monad.
    eexists. repeat (split; [reflexivity|]). events_ok.
Qed.

Lemma mkdir_status_is_ignored_witness :
  exists answer,
    fst (start_monitoring mkdir_refused_host (Return (Dict None)) initial_state)
    = Return answer
    /\ r_status answer = "started"
    /\ monitoring_active
         (snd (start_monitoring mkdir_refused_host (Return (Dict None)) initial_state))
       = true
    /\ started (new_events initial_state
                  (snd (start_monitoring mkdir_refused_host (Return (Dict None))
                          initial_state)))
       = [nvidia_smi_monitor_thread].
Proof.
  destruct (proj1 (mkdir_status_is_ignored mkdir_refused_host None initial_state
                     eq_refl)
              "" "mkdir: cannot create directory: Permission denied" 1%Z
              (Completed "" "" 0) eq_refl eq_refl)
    as (answer & Hanswer & Hstarted & _).
  exists answer. split; [exact Hanswer|].
  destruct (Hstarted eq_refl) as (H1 & H2 & _ & H4).
  repeat split; assumption.
Defined.

(** C10, as stated, fails: when the spawn of the remote [mkdir] raises,
    while the push and every later command would succeed, the start is
    aborted with the error status and no session becomes active. *)
Lemma failed_mkdir_spawn_prevents_start :
  subprocess_run mkdir_spawn_fails_host 0
    (ssh_argv mkdir_spawn_fails_host ("mkdir -p " +:+ remote_dir))
  = Raise (Exception "BlockingIOError" "[Errno 11] Resource temporarily unavailable")
  /\ (forall t argv, 0 < t ->
        subprocess_run mkdir_spawn_fails_host t argv = Return (Completed "" "" 0))
  /\ fst (start_monitoring mkdir_spawn_fails_host (Return (Dict None)) initial_state)
     = Return (Response "error" (Some "[Errno 11] Resource temporarily unavailable")
                 (Some (nl +:+ "Error: [Errno 11] Resource temporarily unavailable"))
                 None None)
  /\ monitoring_active
       (snd (start_monitoring mkdir_spawn_fails_host (Return (Dict None)) initial_state))
     = false
  /\ started (trace (snd (start_monitoring mkdir_spawn_fails_host (Return (Dict None))
                            initial_state))) = [].
Proof.
  split; [reflexivity|]. split.
  { intros [|t] argv Ht; [lia | reflexivity]. }
  repeat split.
Qed.

(** X15.  [POST /api/stop-monitoring] answers [stopped] and writes the
    flag only: the list of thread handles and the collected data stay.  A
    collector loop that looks at the flag afterwards leaves its loop
    without fetching: its turn changes nothing and spawns no process. *)
Theorem stop_cancels_the_loops (rt : runtime) (p : string) (s : state) :
  let s' := snd (stop_monitoring s) in
  fst (stop_monitoring s) = Return (Response "stopped" None None None None)
  /\ monitoring_active s' = false
  /\ tensorboard_data s' = tensorboard_data s
  /\ nvidia_smi_data s' = nvidia_smi_data s
  /\ tensorboard_experiments s' = tensorboard_experiments s
  /\ monitoring_threads s' = monitoring_threads s
  /\ nvidia_smi_monitor_turn rt s' = (Return false, s')
  /\ tensorboard_monitor_turn rt p s' = (Return false, s').
Proof. destruct s. cbv zeta. repeat split. Qed.

(** X16.  A start that follows a stop is never answered [already_running].
    When it is answered [started], the next turn of a collector loop
    fetches again and stays in its loop; that holds for every loop that
    reads the flag, so a loop of the earlier session that had not yet looked
    at the flag carries on next to the new ones.  The handles kept are those
    of the new session only. *)
Theorem restart_revives_old_loops (rt : runtime) (request : result request_data)
  (q : string) (s : state) (answer : response) :
  let s1 := snd (stop_monitoring s) in
  let s2 := snd (start_monitoring rt request s1) in
  fst (start_monitoring rt request s1) = Return answer ->
  r_status answer <> "already_running"
  /\ (r_status answer = "started" ->
      monitoring_threads s2 = session_threads (requested_path request)
      /\ nvidia_smi_monitor_turn rt s2
         = (Return true, snd (fetch_nvidia_smi rt s2))
      /\ tensorboard_monitor_turn rt q s2
         = (Return true, snd (fetch_tensorboard_data rt q s2))).
Proof.
  intros s1 s2 Hanswer.
  destruct (start_monitoring_outcome rt request s1)
    as [(_ & e & _ & Hraise) | (answer' & Hanswer' & Hcases)].
  { rewrite Hraise in Hanswer. discriminate Hanswer. }
  rewrite Hanswer in Hanswer'. injection Hanswer' as <-.
  assert (Hidle : monitoring_active s1 = false) by (destruct s; reflexivity).
  destruct Hcases as [(_ & Hact & _) | [(Hst & _) | (Hst & _ & _ & Hact & Hthr & _)]].
  - rewrite Hidle in Hact. discriminate Hact.
  - rewrite Hst. split; [discriminate|]. discriminate.
  - rewrite Hst. split; [discriminate|]. intros _. fold s2 in Hact, Hthr.
    split; [exact Hthr|].
    unfold nvidia_smi_monitor_turn, tensorboard_monitor_turn, bind, load, ret.
    rewrite Hact.
    destruct (fetch_nvidia_smi_post rt s2) as ([g Hg] & _).
    destruct (fetch_tensorboard_data_post rt q s2) as ([t Ht] & _).
    destruct (fetch_nvidia_smi rt s2) as [r1 s3].
    destruct (fetch_tensorboard_data rt q s2) as [r2 s4].
    cbn [fst snd] in *. subst r1 r2. split; reflexivity.
Qed.

Lemma restart_revives_old_loops_witness :
  monitoring_threads
    (snd (start_monitoring silent_host (Return (Dict None))
            (snd (stop_monitoring initial_state))))
  = session_threads None.
Proof.
  refine (proj1 (proj2 (restart_revives_old_loops silent_host (Return (Dict None))
                          "runs/a" initial_state
                          (Response "started" None _ None None) _) _)).
  - vm_compute. reflexivity.
  - reflexivity.
Defined.

(** X17.  When the spawn of the remote [mkdir] fails, start-monitoring
    answers [error] with the exception text as message, the push is not
    attempted (one child process was spawned, not two), and the session
    stays inactive. *)
Theorem failed_mkdir_spawn_aborts_start (rt : runtime) (p : option string)
  (s : state) (e : exn) :
  monitoring_active s = false ->
  subprocess_run rt (clock s) (ssh_argv rt ("mkdir -p " +:+ remote_dir)) = Raise e ->
  fst (start_monitoring rt (Return (Dict p)) s)
  = Return (Response "error" (Some (exc_text e))
              (Some (nl +:+ "Error: " +:+ exc_text e)) None None)
  /\ spawned (new_events s (snd (start_monitoring rt (Return (Dict p)) s)))
     = [ssh_argv rt ("mkdir -p " +:+ remote_dir)]
  /\ same_globals s (snd (start_monitoring rt (Return (Dict p)) s)).
Proof.
  intros Hidle Hmkdir. destruct s as [tb w ex act thr lk ck tr].
  cbn [clock monitoring_active] in *. subst act.
  unfold start_monitoring, start_error, same_globals, new_events. run_monad.
  rewrite Hmkdir. run_monad.
  split; [reflexivity|]. split; [|repeat split].
  rewrite drop_app_length. reflexivity.
Qed.

Lemma failed_mkdir_spawn_aborts_start_witness :
  fst (start_monitoring (lab ssh_missing no_json false) (Return (Dict None))
         initial_state)
  = Return (Response "error" (Some "[Errno 2] No such file or directory: 'ssh'")
              (Some (nl +:+ "Error: " +:+ "[Errno 2] No such file or directory: 'ssh'"))
              None None).
Proof.
  apply (failed_mkdir_spawn_aborts_start (lab ssh_missing no_json false) None
           initial_state
           (Exception "FileNotFoundError" "[Errno 2] No such file or directory: 'ssh'")
           eq_refl eq_refl).
Defined.

(** ** Start-up validation *)

(** X18.  The module goes on past its start-up check exactly when each of
    the eight required variables is set to a non-empty string; a variable
    set to the empty string counts as missing.  Otherwise the import ends
    with [sys.exit(1)], and the variables named as missing are exactly the
    required ones that are unset or empty, in the order of the list. *)
Theorem startup_requires_every_variable (getenv : string -> option string) :
  (validate_environment getenv = Continues
   <-> forall var, In var REQUIRED_ENV_VARS ->
                   exists v, getenv var = Some v /\ v <> "")
  /\ (validate_environment getenv = Continues
      \/ exists printed, validate_environment getenv = SysExit 1 printed)
  /\ (forall var, In var (missing_vars getenv)
                  <-> In var REQUIRED_ENV_VARS
                      /\ (getenv var = None \/ getenv var = Some ""))
  /\ sublist (missing_vars getenv) REQUIRED_ENV_VARS.
Proof.
  assert (Htruthy : forall o, env_truthy o = false <-> o = None \/ o = Some "").
  { intros [[|c v]|]; cbn; split; intros H; try discriminate; auto.
    destruct H as [H|H]; discriminate H. }
  assert (Hmissing : forall var, In var (missing_vars getenv)
                       <-> In var REQUIRED_ENV_VARS
                           /\ (getenv var = None \/ getenv var = Some "")).
  { intros var. unfold missing_vars.
    rewrite <- !list_elem_of_In, list_elem_of_filter, Htruthy. tauto. }
  split; [|split; [|split; [exact Hmissing | apply sublist_filter]]].
  - unfold validate_environment. split.
    + intros Hc var Hvar.
      destruct (missing_vars getenv) as [|m ms] eqn:Hm; [|discriminate Hc].
      destruct (getenv var) as [[|c v]|] eqn:Hv.
      * destruct (proj2 (Hmissing var) (conj Hvar (or_intror Hv))).
      * eexists. split; [reflexivity | discriminate].
      * destruct (proj2 (Hmissing var) (conj Hvar (or_introl Hv))).
    + intros Hall. destruct (missing_vars getenv) as [|m ms] eqn:Hm; [reflexivity|].
      exfalso. destruct (proj1 (Hmissing m) (or_introl eq_refl)) as [Hin Hbad].
      destruct (Hall m Hin) as (v & Hv & Hne). rewrite Hv in Hbad.
      destruct Hbad as [H|H]; [discriminate H | congruence].
  - unfold validate_environment. destruct (missing_vars getenv); eauto.
Qed.

(** ** The remote helper *)

Lemma dict_get_set_eq key v members : dict_get key (dict_set key v members) = Some v.
Proof.
  induction members as [|[k x] rest IH]; cbn; [rewrite String.eqb_refl; reflexivity|].
  destruct (String.eqb k key) eqn:Hk; cbn; rewrite Hk; [reflexivity | exact IH].
Qed.

Lemma dict_get_set_ne key key' v members :
  key' <> key -> dict_get key' (dict_set key v members) = dict_get key' members.
Proof.
  intros Hne. induction members as [|[k x] rest IH]; cbn.
  - destruct (String.eqb key key') eqn:Hk; [|reflexivity].
    apply String.eqb_eq in Hk. congruence.
  - destruct (String.eqb k key) eqn:Hk; cbn.
    + apply String.eqb_eq in Hk. subst k.
      destruct (String.eqb key key') eqn:Hk'; [|reflexivity].
      apply String.eqb_eq in Hk'. congruence.
    + destruct (String.eqb k key'); [reflexivity | exact IH].
Qed.

Lemma dict_set_Forall (P : string * json -> Prop) key v members :
  P (key, v) -> (forall k x, P (k, x) -> P (k, v)) ->
  Forall P members -> Forall P (dict_set key v members).
Proof.
  intros Hv Hrepl. induction 1 as [|[k x] rest Hx Hrest IH]; cbn.
  - constructor; [exact Hv | constructor].
  - destruct (String.eqb k key); constructor; auto. eapply Hrepl, Hx.
Qed.

Lemma collect_scalars_keys Scalars path tags : forall data0 data,
  collect_scalars Scalars path tags data0 = Return data ->
  forall k, is_Some (dict_get k data) <-> In k tags \/ is_Some (dict_get k data0).
Proof.
  induction tags as [|tag tags IH]; intros data0 data Hc k.
  - injection Hc as <-. cbn. tauto.
  - cbn in Hc. destruct (Scalars path tag) as [events|e]; [|discriminate Hc].
    rewrite (IH _ _ Hc k). cbn.
    destruct (decide (k = tag)) as [-> | Hne].
    + rewrite dict_get_set_eq. split; intros _; [left; left; reflexivity | right; eauto].
    + rewrite dict_get_set_ne by exact Hne. split; intros [H|H]; auto.
      * destruct H as [H|H]; [congruence | auto].
Qed.

Lemma collect_scalars_values Scalars path tags : forall data0 data,
  collect_scalars Scalars path tags data0 = Return data ->
  Forall (fun kv => exists events, snd kv = scalar_entry events) data0 ->
  Forall (fun kv => exists events, snd kv = scalar_entry events) data.
Proof.
  induction tags as [|tag tags IH]; intros data0 data Hc H0.
  - injection Hc as <-. exact H0.
  - cbn in Hc. destruct (Scalars path tag) as [events|e]; [|discriminate Hc].
    apply (IH _ _ Hc). apply dict_set_Forall; cbn; eauto.
Qed.

Lemma extract_exit_zero import scalar_tags Scalars argv printed :
  extract_tensorboard import scalar_tags Scalars argv = (printed, 0%Z) ->
  import = Return tt
  /\ exists script path rest tags data,
      argv = script :: path :: rest
      /\ scalar_tags path = Return tags
      /\ collect_scalars Scalars path tags [] = Return data
      /\ printed = Some (JObj data).
Proof.
  unfold extract_tensorboard.
  destruct import as [[]|e]; [|discriminate].
  destruct argv as [|script [|path rest]]; try discriminate.
  destruct (scalar_tags path) as [tags|e] eqn:Ht; [|discriminate].
  destruct (collect_scalars Scalars path tags []) as [data|e] eqn:Hc; [|discriminate].
  intros [= <-]. split; [reflexivity|].
  exists script, path, rest, tags, data. repeat split; assumption.
Qed.


Lemma dict_get_In key members v : dict_get key members = Some v -> In (key, v) members.
Proof.
  induction members as [|[k x] rest IH]; cbn; [discriminate|].
  destruct (String.eqb k key) eqn:Hk.
  - apply String.eqb_eq in Hk. intros [= ->]. left. congruence.
  - intros H. right. exact (IH H).
Qed.

(** The scalar fetcher on the output of a helper that ended with status 0
    and printed an object. *)
Lemma fetch_tensorboard_data_object rt p s stdout stderr data :
  subprocess_run rt (clock s) (ssh_argv rt (tensorboard_command rt p))
  = Return (Completed stdout stderr 0) ->
  stdout <> "" ->
  json_loads rt stdout = Return (JObj data) ->
  match dict_get "error" data with
  | Some err =>
      fst (fetch_tensorboard_data rt p s)
      = Return (TbResult None (tensorboard_command rt p) stdout stderr 0 (Some err))
      /\ same_globals s (snd (fetch_tensorboard_data rt p s))
  | None =>
      fst (fetch_tensorboard_data rt p s)
      = Return (TbResult (Some (JObj data)) (tensorboard_command rt p) stdout stderr 0 None)
      /\ tensorboard_data (snd (fetch_tensorboard_data rt p s))
         = <[Py.lstrip "/" p := JObj data]> (tensorboard_data s)
  end.
Proof.
  intros Hrun Hout Hjson.
  destruct s as [tb w ex act thr lk ck tr]. cbn [clock] in Hrun.
  unfold fetch_tensorboard_data, same_globals. run_monad.
  rewrite Hrun. run_monad.
  destruct stdout as [|c stdout]; [congruence|]. cbn [nonempty negb orb Z.eqb].
  rewrite Hjson. run_monad.
  destruct (dict_get "error" data) as [err|] eqn:Herr.
  - rewrite bool_decide_eq_true_2 by eauto. repeat split.
  - rewrite bool_decide_eq_false_2 by (intros [? H]; discriminate H). split; reflexivity.
Qed.

(** X20.  Helper and fetcher together: when the experiment has a scalar
    tag named [error], the helper ends with status 0 and prints its scalars,
    and the fetcher takes the member of that tag for an error report: the
    result carries no data, its ['error'] member is the scalars of the tag,
    and nothing is stored.  Such an experiment cannot be fetched. *)
Theorem tag_named_error_blocks_the_fetch
  (import : result unit)
  (scalar_tags : string -> result (list string))
  (Scalars : string -> string -> result (list ScalarEvent))
  (rt : runtime) (script p : string) (s : state)
  (stdout stderr : string) (doc : json) (tags : list string) :
  extract_tensorboard import scalar_tags Scalars [script; p] = (Some doc, 0%Z) ->
  scalar_tags p = Return tags ->
  In "error" tags ->
  subprocess_run rt (clock s) (ssh_argv rt (tensorboard_command rt p))
  = Return (Completed stdout stderr 0) ->
  stdout <> "" ->
  json_loads rt stdout = Return doc ->
  exists events,
    fst (fetch_tensorboard_data rt p s)
    = Return (TbResult None (tensorboard_command rt p) stdout stderr 0
                (Some (scalar_entry events)))
    /\ same_globals s (snd (fetch_tensorboard_data rt p s)).
Proof.
  intros Hx Htags Hin Hrun Hout Hjson.
  destruct (extract_exit_zero _ _ _ _ _ Hx)
    as (_ & script' & path & rest & tags' & data & Hargv & Htags' & Hc & Hdoc).
  injection Hdoc as ->. injection Hargv as <- <- <-. rewrite Htags in Htags'. injection Htags' as <-.
  assert (Hsome : is_Some (dict_get "error" data)).
  { apply (collect_scalars_keys Scalars p tags [] data Hc). left. exact Hin. }
  destruct Hsome as [err Herr].
  pose proof (collect_scalars_values Scalars p tags [] data Hc (Forall_nil_2 _)) as Hv.
  rewrite List.Forall_forall in Hv.
  destruct (Hv _ (dict_get_In _ _ _ Herr)) as (events & Hev). cbn in Hev. subst err.
  exists events.
  pose proof (fetch_tensorboard_data_object rt p s stdout stderr data Hrun Hout Hjson) as H.
  rewrite Herr in H. exact H.
Qed.

Lemma tag_named_error_blocks_the_fetch_witness :
  exists events,
    fst (fetch_tensorboard_data error_tag_host "runs/a" initial_state)
    = Return (TbResult None (tensorboard_command error_tag_host "runs/a")
                "(scalars of loss and error)" "" 0 (Some (scalar_entry events)))
    /\ same_globals initial_state
         (snd (fetch_tensorboard_data error_tag_host "runs/a" initial_state)).
Proof.
  apply (tag_named_error_blocks_the_fetch (Return tt) error_tag_tags error_tag_scalars
           error_tag_host "extract_tensorboard.py" "runs/a" initial_state
           "(scalars of loss and error)" "" error_tag_document ["loss"; "error"]).
  - reflexivity.
  - reflexivity.
  - right. left. reflexivity.
  - reflexivity.
  - discriminate.
  - reflexivity.
Defined.

(** X21.  Helper and fetcher together, the remote command ending with
    the helper's status and its standard output being what the helper
    printed: the result of the fetch has an ['error'] member exactly when
    the helper ended with status 0 and the experiment has a scalar tag
    named [error].  When the helper fails, it ends with status 1, and
    whether it printed its error document or, after a failed import,
    nothing at all, the result has return code 1, no data and no ['error']
    member, the captured stdout and stderr being passed through, and no
    global is written. *)
Theorem error_member_means_error_tag
  (import : result unit)
  (scalar_tags : string -> result (list string))
  (Scalars : string -> string -> result (list ScalarEvent))
  (rt : runtime) (script p : string) (s : state) (stdout stderr : string) :
  let printed := fst (extract_tensorboard import scalar_tags Scalars [script; p]) in
  let status := snd (extract_tensorboard import scalar_tags Scalars [script; p]) in
  subprocess_run rt (clock s) (ssh_argv rt (tensorboard_command rt p))
  = Return (Completed stdout stderr status) ->
  match printed with
  | Some doc => stdout <> "" /\ json_loads rt stdout = Return doc
  | None => stdout = ""
  end ->
  exists t,
    fst (fetch_tensorboard_data rt p s) = Return t
    /\ (t_error t <> None
        <-> status = 0%Z /\ exists tags, scalar_tags p = Return tags /\ In "error" tags)
    /\ (status <> 0%Z ->
        t = TbResult None (tensorboard_command rt p) stdout stderr 1 None
        /\ same_globals s (snd (fetch_tensorboard_data rt p s))).
Proof.
  cbv zeta. intros Hrun Hprinted.
  destruct (extract_tensorboard import scalar_tags Scalars [script; p])
    as [printed status] eqn:Hx.
  cbn [fst snd] in *.
  destruct (Z.eq_dec status 0%Z) as [-> | Hne].
  - destruct (extract_exit_zero _ _ _ _ _ Hx)
      as (_ & script' & path & rest & tags & data & Hargv & Htags & Hc & ->).
    injection Hargv as <- <- <-. destruct Hprinted as [Hout Hjson].
    pose proof (fetch_tensorboard_data_object rt p s stdout stderr data Hrun Hout Hjson) as H.
    pose proof (collect_scalars_keys Scalars p tags [] data Hc "error") as Hkeys.
    destruct (dict_get "error" data) as [err|] eqn:Herr; destruct H as [H _];
      eexists; (split; [exact H|]); cbn [t_error]; (split; [|congruence]).
    + split; [|discriminate]. intros _. split; [reflexivity|].
      exists tags. split; [exact Htags|].
      destruct (proj1 Hkeys (ex_intro _ err eq_refl)) as [Hin | [? Hbad]];
        [exact Hin | discriminate Hbad].
    + split; [congruence|]. intros (_ & tags' & Htags' & Hin).
      rewrite Htags in Htags'. injection Htags' as <-.
      destruct (proj2 Hkeys (or_introl Hin)) as [? Hbad]. discriminate Hbad.
  - assert (Hone : status = 1%Z).
    { revert Hx. unfold extract_tensorboard.
      destruct import as [[]|e]; [|intros [= _ <-]; reflexivity].
      destruct (scalar_tags p) as [tags|e]; [|intros [= _ <-]; reflexivity].
      destruct (collect_scalars Scalars p tags []) as [data|e]; intros [= _ <-];
        [congruence | reflexivity]. }
    subst status.
    destruct s as [tb w ex act thr lk ck tr]. cbn [clock] in Hrun.
    unfold fetch_tensorboard_data, same_globals. run_monad.
    rewrite Hrun. run_monad. cbn [Z.eqb negb orb].
    eexists. split; [reflexivity|]. cbn [t_error]. split.
    + split; [congruence|]. intros [Hbad _]. discriminate Hbad.
    + intros _. repeat split.
Qed.

Lemma error_member_means_error_tag_witness :
  (exists t,
      fst (fetch_tensorboard_data missing_run_host "runs/gone" initial_state) = Return t
      /\ t = TbResult None (tensorboard_command missing_run_host "runs/gone")
               "(error document)" "" 1 None)
  /\ (exists t,
        fst (fetch_tensorboard_data no_tensorboard_host "runs/a" initial_state) = Return t
        /\ t = TbResult None (tensorboard_command no_tensorboard_host "runs/a")
                 "" "ModuleNotFoundError: No module named 'tensorboard'" 1 None).
Proof.
  split.
  - pose proof (error_member_means_error_tag (Return tt) missing_run_tags
                  error_tag_scalars missing_run_host "extract_tensorboard.py"
                  "runs/gone" initial_state "(error document)" "") as H.
    cbv zeta in H.
    destruct H as (t & Ht & _ & Hfail).
    + vm_compute. reflexivity.
    + vm_compute. split; [discriminate | reflexivity].
    + exists t. split; [exact Ht|]. apply Hfail. vm_compute. discriminate.
  - pose proof (error_member_means_error_tag
                  (Raise (Exception "ModuleNotFoundError" "No module named 'tensorboard'"))
                  missing_run_tags error_tag_scalars no_tensorboard_host
                  "extract_tensorboard.py" "runs/a" initial_state
                  "" "ModuleNotFoundError: No module named 'tensorboard'") as H.
    cbv zeta in H.
    destruct H as (t & Ht & _ & Hfail).
    + vm_compute. reflexivity.
    + vm_compute. reflexivity.
    + exists t. split; [exact Ht|]. apply Hfail. vm_compute. discriminate.
Defined.

(** ** Counting samples *)

Lemma run_app rt l1 l2 s : run rt (l1 ++ l2) s = run rt l2 (run rt l1 s).
Proof. unfold run. apply fold_left_app. Qed.

Lemma length_evict_oldest {A} (l : list A) x :
  length l <= 100 -> length (evict_oldest l x) = Nat.min (S (length l)) 100.
Proof.
  intros H. unfold evict_oldest. destruct (length l <? 100)%nat eqn:E.
  - apply Nat.ltb_lt in E. rewrite length_app. cbn [length]. lia.
  - apply Nat.ltb_ge in E. rewrite length_app. cbn [length].
    destruct l; cbn [length tail] in *; lia.
Qed.

(** X22.  On a host whose sensor always answers with a readable sample,
    after [n] invocations of the sampler from start-up the window holds
    [min n 100] elements: nothing is lost before the capacity is reached and
    nothing is kept beyond it. *)
Theorem window_counts_samples (rt : runtime) (n : nat) :
  (forall t argv, exists stdout stderr,
      subprocess_run rt t argv = Return (Completed stdout stderr 0)
      /\ read_sample stdout <> None) ->
  length (timestamps (nvidia_smi_data
            (run rt (repeat CallFetchNvidiaSmi n) initial_state))) = Nat.min n 100.
Proof.
  intros Hhost. induction n as [|n IH]; [reflexivity|].
  replace (repeat CallFetchNvidiaSmi (S n))
    with (repeat CallFetchNvidiaSmi n ++ [CallFetchNvidiaSmi])
    by (symmetry; apply (repeat_cons n CallFetchNvidiaSmi)).
  rewrite run_app. cbn [run fold_left exec].
  set (s := run rt (repeat CallFetchNvidiaSmi n) initial_state) in *.
  destruct (run_Inv rt (repeat CallFetchNvidiaSmi n) initial_state initial_Inv)
    as [_ _ Hl Hb]. fold s in Hl, Hb.
  destruct (Hhost (clock s) (ssh_argv rt nvidia_smi_command))
    as (stdout & stderr & Hrun & Hsample).
  destruct (read_sample stdout) as [[[[a b] c] d]|] eqn:Hread; [|congruence].
  destruct (fetch_nvidia_smi_readable rt s stdout stderr a b c d Hl Hb Hrun Hread)
    as [_ Hwin].
  rewrite Hwin. cbn [timestamps]. rewrite length_evict_oldest by exact Hb.
  rewrite IH. lia.
Qed.

Lemma window_counts_samples_witness :
  length (timestamps (nvidia_smi_data
            (run healthy_host (repeat CallFetchNvidiaSmi 3) initial_state))) = Nat.min 3 100.
Proof.
  apply (window_counts_samples healthy_host 3).
  intros t argv. exists "45, 120.50, 2000, 8000", "". split; [reflexivity|].
  vm_compute. discriminate.
Defined.
